(** * Session bootstrap and conversational turn processor

    A shallow embedding of

    - [CodingAgentController.startCodeGeneration]
      (worker/api/controllers/agent/controller.ts), and
    - [buildEditAppTool], [UserConversationProcessor.execute],
      [UserConversationProcessor.processProjectUpdates] and
      [UserConversationProcessor.isProjectUpdateType]
      (worker/agents/operations/UserConversationProcessor.ts),

    followed by the properties of the specification that are settled on
    it, and by further properties of the code.
    Line numbers in the comments are those of controller.ts and of the
    complete copy of the processor's source.

    Conventions of the embedding.

    - A JavaScript [throw] is an [Abrupt] completion; [try]/[catch] is
      [tryCatch]; an early [return] of the HTTP handler is a [Respond] flow.
    - The collaborators that live outside the two source files (quota
      engine, id generators, template selection, agent actor, inference
      engine, system prompt builder) are oracles: the embedding is
      parametric in what they answer, and records every call made to them.
    - Arrays of conversation messages are objects of a store ([heap]),
      addressed by location, so that aliasing and in-place [push] are
      visible.
    - Calls to the logger and to [console.log] are left out: they neither
      return a value that is used nor touch any state of the model.
    - A [string] stands for the text it holds in UTF-8; [TextEncoder.encode]
      is then the list of its bytes. *)

From Stdlib Require Import ZArith Lia.
From stdpp Require Import base option list strings pretty gmap.

Local Open Scope string_scope.
Local Open Scope list_scope.

(** ** JavaScript values and completions *)

Module Js.

(** The JSON data model: what [request.json()] yields and [JSON.stringify]
    consumes. *)
#[local] Unset Elimination Schemes.
Inductive Json : Type :=
| JsNull
| JsBool (b : bool)
| JsNumber (n : Z)
| JsString (s : string)
| JsArray (items : list Json)
| JsObject (fields : list (string * Json)).
#[local] Set Elimination Schemes.

(** The error classes the source tests with [instanceof]
    (shared/types/errors); every other [Error] is a [GenericError]. *)
Inductive ErrorClass : Type :=
| RateLimitExceededError
| SecurityError
| GenericError.

(** A thrown value: an [Error] object of some class with its message, or
    any other value. *)
Inductive Thrown : Type :=
| ThrownError (cls : ErrorClass) (message : string)
| ThrownValue (v : Json).

(** [error instanceof Error] *)
Definition instanceofError (error : Thrown) : bool :=
  match error with
  | ThrownError _ _ => true
  | ThrownValue _ => false
  end.

(** [error instanceof RateLimitExceededError] *)
Definition instanceofRateLimitExceededError (error : Thrown) : bool :=
  match error with
  | ThrownError RateLimitExceededError _ => true
  | _ => false
  end.

(** [error instanceof SecurityError] *)
Definition instanceofSecurityError (error : Thrown) : bool :=
  match error with
  | ThrownError SecurityError _ => true
  | _ => false
  end.

(** The outcome of evaluating a call: a value, or a thrown value. *)
Inductive Completion (A : Type) : Type :=
| Normal (a : A)
| Abrupt (error : Thrown).

Arguments Normal {A} a.
Arguments Abrupt {A} error.

(** [chunk === "terminate"]: strict equality with a string literal holds
    for that very string and for nothing else. *)
Definition strictEqualsString (v : Json) (literal : string) : bool :=
  match v with
  | JsString s => String.eqb s literal
  | _ => false
  end.

(** [a || b] on an optional string: [undefined] and the empty string are
    falsy. *)
Definition orElse (a : option string) (b : string) : string :=
  match a with
  | Some EmptyString => b
  | Some s => s
  | None => b
  end.

(** [a || b] on an optional array: every array is truthy. *)
Definition orElseArray {A : Type} (a : option (list A)) (b : list A) : list A :=
  match a with
  | Some l => l
  | None => b
  end.

(** [!query] on an optional string. *)
Definition falsy (a : option string) : bool :=
  match a with
  | Some EmptyString => true
  | Some _ => false
  | None => true
  end.

(** [haystack.includes(needle)] *)
Definition includes (haystack needle : string) : bool :=
  match String.index 0 needle haystack with
  | Some _ => true
  | None => false
  end.

(** The one-character string ['\n']. *)
Definition newline : string := String (Ascii.ascii_of_nat 10) EmptyString.

(** [new TextEncoder().encode(s)] *)
Definition TextEncoder_encode (s : string) : list Byte.byte :=
  String.list_byte_of_string s.

End Js.

Import Js.

(** ** The duplex stream of the bootstrap response *)

Module EventStream.

Section Transform.

(** [JSON.stringify] of the platform, on the values written to the stream. *)
Variable JSON_stringify : Json -> string.

(** The readable side as the transformer's controller sees it: the byte
    chunks enqueued so far (oldest first), and whether [terminate()] was
    called. *)
Record TransformStreamDefaultController : Type := {
  enqueued : list (list Byte.byte);
  terminated : bool
}.

Definition newController : TransformStreamDefaultController :=
  {| enqueued := []; terminated := false |}.

(** [controller.terminate()] *)
Definition terminate (controller : TransformStreamDefaultController)
  : TransformStreamDefaultController :=
  {| enqueued := enqueued controller; terminated := true |}.

(** [controller.enqueue(encoded)] *)
Definition enqueue (encoded : list Byte.byte)
    (controller : TransformStreamDefaultController)
  : TransformStreamDefaultController :=
  {| enqueued := enqueued controller ++ [encoded];
     terminated := terminated controller |}.

(** The [transform(chunk, controller)] method given to [new TransformStream]
    (controller.ts, lines 50-57). *)
Definition transform (chunk : Json)
    (controller : TransformStreamDefaultController)
  : TransformStreamDefaultController :=
  if strictEqualsString chunk "terminate" then
    terminate controller
  else
    let encoded := TextEncoder_encode (JSON_stringify chunk +:+ newline) in
    enqueue encoded controller.

End Transform.

End EventStream.

(** ** Session bootstrap: [CodingAgentController.startCodeGeneration] *)

Module Bootstrap.

Import EventStream.

(** [new URL(request.url)]: the components the handler reads. *)
Record URL : Type := {
  protocol : string;
  hostname : string;
  port : string;
  host : string;
  origin : string
}.

Record Request : Type := { url : URL }.

Record User : Type := { id : string }.

(** [context.user!] and [context.config.security.rateLimit]. *)
Record RouteContext : Type := {
  user : User;
  config_security_rateLimit : Json
}.

(** The request body, [CodeGenArgs]; an absent field is [None]. *)
Record CodeGenArgs : Type := {
  query : option string;
  language : option string;
  frameworks : option (list string);
  selectedTemplate : option string;
  agentMode : option string
}.

Definition defaultCodeGenArgs : CodeGenArgs :=
  {| query := Some EmptyString;
     language := Some "typescript";
     frameworks := Some ["react"; "vite"];
     selectedTemplate := Some "auto";
     agentMode := Some "deterministic" |}.

(** [a || b] where [b] is itself an optional field. *)
Definition orField (a b : option string) : option string :=
  match a with
  | Some EmptyString => b
  | Some s => Some s
  | None => b
  end.

Definition orFieldArray {A : Type} (a b : option (list A)) : option (list A) :=
  match a with
  | Some l => Some l
  | None => b
  end.

(** One entry of the record answered by
    [ModelConfigService.getUserModelConfigs]. *)
Record MergedModelConfig : Type := {
  name : string;
  max_tokens : option Json;
  temperature : option Json;
  reasoning_effort : option Json;
  fallbackModel : option Json;
  isUserOverride : bool
}.

Record ModelConfig : Type := {
  mc_name : string;
  mc_max_tokens : option Json;
  mc_temperature : option Json;
  mc_reasoning_effort : option Json;
  mc_fallbackModel : option Json
}.

Record InferenceContext : Type := {
  userModelConfigs : list (string * ModelConfig);
  ic_agentId : string;
  userId : string;
  enableRealtimeCodeFix : bool
}.

Record TemplateDetails : Type := {
  template_name : string;
  template_files : Json
}.

(** The answer of [getTemplateForQuery]. *)
Record TemplateSelection : Type := {
  sandboxSessionId : string;
  templateDetails : TemplateDetails;
  selection : Json
}.

(** The data handed to [agentInstance.initialize]; the [onBlueprintChunk]
    closure passed along with it is [onBlueprintChunk] below. *)
Record InitializeArgs : Type := {
  init_query : string;
  init_language : option string;
  init_frameworks : option (list string);
  init_hostname : string;
  init_inferenceContext : InferenceContext;
  init_templateInfo : TemplateDetails * Json;
  init_sandboxSessionId : string
}.

(** What the agent actor does with one [initialize] call: it reports
    blueprint fragments through [onBlueprintChunk] while the returned
    promise is pending, and then the promise settles: fulfilled with the
    final generation state (opaque here), or rejected. *)
Record AgentInitialization : Type := {
  blueprintChunks : list string;
  settled : Completion unit
}.

Record AgentStub : Type := {
  initialize : InitializeArgs -> option string -> AgentInitialization
}.

(** The collaborators of the handler, as oracles. *)
Record Collaborators : Type := {
  (** [JSON.stringify(value)] *)
  JSON_stringify : Json -> string;
  (** [JSON.stringify(error, null, 2)] on a caught value *)
  JSON_stringify_indented : Thrown -> string;
  (** [getPreviewDomain(env)] *)
  getPreviewDomain : string;
  (** [await request.json()] *)
  request_json : Completion CodeGenArgs;
  (** [await RateLimitService.enforceAppCreationRateLimit(...)] *)
  enforceAppCreationRateLimit : Completion unit;
  (** [generateId()] *)
  generateId : string;
  (** [modelConfigService.getUserModelConfigs(user.id)], as
      [Object.entries] lists it *)
  getUserModelConfigs : string -> Completion (list (string * MergedModelConfig));
  (** [getAgentStub(env, agentId, false, logger)] *)
  getAgentStub : string -> Completion AgentStub;
  (** [getTemplateForQuery(env, inferenceContext, query, logger)] *)
  getTemplateForQuery : InferenceContext -> string -> Completion TemplateSelection
}.

(** The calls the handler makes to the outside, in the order it makes
    them. *)
Inductive Effect : Type :=
| RequestJson
| NewTransformStream
| GetWriter
| EnforceAppCreationRateLimit (u : User)
| GenerateId
| GetUserModelConfigs (userId : string)
| GetAgentStub (agentId : string)
| GetTemplateForQuery (context : InferenceContext) (query : string)
| WriterWrite (chunk : Json)
| AgentInitialize (args : InitializeArgs) (mode : option string)
| WriterClose.

(** The HTTP responses the handler can produce. *)
Inductive Response : Type :=
| ErrorResponse (message : string) (status : Z)
| HandledError (error : Thrown) (action : string)
| StreamResponse (status : Z) (headers : list (string * string)).

(** [error.message] *)
Definition message_of (error : Thrown) : string :=
  match error with
  | ThrownError _ message => message
  | ThrownValue _ => EmptyString
  end.

(** Modelled from the spec: [BaseController.createErrorResponse] is not
    among the sources. Per the spec an error response is a structured JSON
    body [{error: string}] with an explicit status code; it carries the
    text it is given, or the message of the [Error] it is given. *)
Definition createErrorResponse (error : string + Thrown) (statusCode : Z)
  : Response :=
  match error with
  | inl text => ErrorResponse text statusCode
  | inr e => ErrorResponse (message_of e) statusCode
  end.

(** Modelled from the spec: [BaseController.handleError] is not among the
    sources; the response it builds is kept symbolic. *)
Definition handleError (error : Thrown) (action : string) : Response :=
  HandledError error action.

(** The writer of the duplex stream together with its transformer. *)
Record DuplexStream : Type := {
  controller : TransformStreamDefaultController;
  writerClosed : bool
}.

(** The state the handler runs in: the calls made so far (oldest first),
    the duplex stream once it is constructed, and the agent initialization
    launched and not awaited, if any. *)
Record ServerState : Type := {
  effects : list Effect;
  stream : option DuplexStream;
  launched : option AgentInitialization
}.

Definition initialState : ServerState :=
  {| effects := []; stream := None; launched := None |}.

(** How a block of the handler ends: it goes on with a value, it returns
    a response from the handler, or it throws. *)
Inductive Flow (A : Type) : Type :=
| Continue (a : A)
| Respond (r : Response)
| Throw (error : Thrown).

Arguments Continue {A} a.
Arguments Respond {A} r.
Arguments Throw {A} error.

Definition Handler (A : Type) : Type := ServerState -> Flow A * ServerState.

Definition ret {A : Type} (a : A) : Handler A := fun st => (Continue a, st).

Definition bind {A B : Type} (m : Handler A) (k : A -> Handler B) : Handler B :=
  fun st =>
    match m st with
    | (Continue a, st') => k a st'
    | (Respond r, st') => (Respond r, st')
    | (Throw e, st') => (Throw e, st')
    end.

(** [return response;] *)
Definition respond {A : Type} (r : Response) : Handler A :=
  fun st => (Respond r, st).

(** [try { body } catch (error) { handler }] *)
Definition tryCatch {A : Type} (body : Handler A) (handler : Thrown -> Handler A)
  : Handler A :=
  fun st =>
    match body st with
    | (Throw e, st') => handler e st'
    | other => other
    end.

Definition record (e : Effect) : Handler unit :=
  fun st =>
    (Continue tt,
     {| effects := effects st ++ [e]; stream := stream st;
        launched := launched st |}).

(** [await call], the call being recorded as [e]. *)
Definition await {A : Type} (e : Effect) (outcome : Completion A) : Handler A :=
  fun st =>
    let st' := {| effects := effects st ++ [e]; stream := stream st;
                  launched := launched st |} in
    match outcome with
    | Normal a => (Continue a, st')
    | Abrupt error => (Throw error, st')
    end.

Declare Scope handler_scope.
Delimit Scope handler_scope with handler.
Notation "x <- m ;; k" := (bind m (fun x => k))
  (at level 100, m at next level, right associativity) : handler_scope.
Notation "m ;; k" := (bind m (fun _ => k))
  (at level 100, right associativity) : handler_scope.

Local Open Scope handler_scope.

(** A step that changes the state and cannot fail. *)
Definition perform (f : ServerState -> ServerState) : Handler unit :=
  fun st => (Continue tt, f st).

(** [new TransformStream({ transform })] *)
Definition newTransformStream (st : ServerState) : ServerState :=
  {| effects := effects st ++ [NewTransformStream];
     stream := Some {| controller := newController; writerClosed := false |};
     launched := launched st |}.

(** [writable.getWriter()] *)
Definition getWriter (st : ServerState) : ServerState :=
  {| effects := effects st ++ [GetWriter];
     stream := stream st;
     launched := launched st |}.

(** [writer.write(chunk)], not awaited: the chunk goes through [transform]
    unless the writer is closed or the transformer has terminated, in which
    case the write is rejected and the readable side stays as it is. *)
Definition writer_write (c : Collaborators) (chunk : Json) (st : ServerState)
  : ServerState :=
  {| effects := effects st ++ [WriterWrite chunk];
     stream :=
       match stream st with
       | Some s =>
           if writerClosed s || terminated (controller s) then Some s
           else Some {| controller := transform (JSON_stringify c) chunk (controller s);
                        writerClosed := false |}
       | None => None
       end;
     launched := launched st |}.

(** [writer.close()], not awaited. *)
Definition writer_close (st : ServerState) : ServerState :=
  {| effects := effects st ++ [WriterClose];
     stream :=
       match stream st with
       | Some s => Some {| controller := controller s; writerClosed := true |}
       | None => None
       end;
     launched := launched st |}.

(** [userModelConfigs.set(actionKey, modelConfig)] on a [Map], kept in
    insertion order. *)
Fixpoint mapSet {V : Type} (key : string) (value : V) (m : list (string * V))
  : list (string * V) :=
  match m with
  | [] => [(key, value)]
  | (k, v) :: rest =>
      if String.eqb k key then (key, value) :: rest
      else (k, v) :: mapSet key value rest
  end.

(** The loop over [Object.entries(userConfigsRecord)] (lines 81-93): only
    the entries marked [isUserOverride] are copied, reduced to the five
    fields of a [ModelConfig]. *)
Definition collectUserOverrides (userConfigsRecord : list (string * MergedModelConfig))
  : list (string * ModelConfig) :=
  foldl
    (fun userModelConfigs entry =>
       let '(actionKey, mergedConfig) := entry in
       if isUserOverride mergedConfig then
         let modelConfig :=
           {| mc_name := name mergedConfig;
              mc_max_tokens := max_tokens mergedConfig;
              mc_temperature := temperature mergedConfig;
              mc_reasoning_effort := reasoning_effort mergedConfig;
              mc_fallbackModel := fallbackModel mergedConfig |} in
         mapSet actionKey modelConfig userModelConfigs
       else userModelConfigs)
    [] userConfigsRecord.

(** [await Promise.all([a, b])], both calls having been made: the pair of
    the two values, or the rejection (of the first, when both reject). *)
Definition promiseAll {A B : Type} (a : Completion A) (b : Completion B)
  : Handler (A * B) :=
  fun st =>
    match a, b with
    | Normal x, Normal y => (Continue (x, y), st)
    | Abrupt error, _ => (Throw error, st)
    | _, Abrupt error => (Throw error, st)
    end.

(** The double-quote character, and the 400 message of a missing query. *)
Definition quote : string := String (Ascii.ascii_of_nat 34) EmptyString.

Definition missingQueryMessage : string :=
  "Missing " +:+ quote +:+ "query" +:+ quote +:+ " field in request body".

Definition streamHeaders : list (string * string) :=
  [("Content-Type", "text/event-stream; charset=utf-8");
   ("Cache-Control", "no-cache, no-store, must-revalidate, no-transform");
   ("Pragma", "no-cache");
   ("Connection", "keep-alive")].

(** The first progress event (lines 111-120). *)
Definition startedEvent (agentId websocketUrl httpStatusUrl : string)
    (details : TemplateDetails) : Json :=
  JsObject
    [("message", JsString "Code generation started");
     ("agentId", JsString agentId);
     ("websocketUrl", JsString websocketUrl);
     ("httpStatusUrl", JsString httpStatusUrl);
     ("template",
      JsObject [("name", JsString (template_name details));
                ("files", template_files details)])].

(** [agentInstance.initialize(args, mode)] with the [.then] reaction
    registered on its promise: the call is made and returns its promise
    (it does not throw), nothing is awaited. *)
Definition launch (agentInstance : AgentStub) (args : InitializeArgs)
    (mode : option string) (st : ServerState) : ServerState :=
  {| effects := effects st ++ [AgentInitialize args mode];
     stream := stream st;
     launched := Some (initialize agentInstance args mode) |}.

(** The body of the outer [try] of [startCodeGeneration] (lines 33-150). *)
Definition startCodeGeneration_try (request : Request) (context : RouteContext)
    (c : Collaborators) : Handler Response :=
  let url := url request in
  let hostname :=
    if String.eqb (hostname url) "localhost"
    then "localhost:" +:+ port url
    else getPreviewDomain c in
  body <- tryCatch (await RequestJson (request_json c))
            (fun error =>
               respond (createErrorResponse
                          (inl ("Invalid JSON in request body: "
                                +:+ JSON_stringify_indented c error)) 400)) ;;
  match query body with
  | None | Some EmptyString =>
      respond (createErrorResponse (inl missingQueryMessage) 400)
  | Some query =>
      perform newTransformStream ;;
      perform getWriter ;;
      let user := user context in
      tryCatch (await (EnforceAppCreationRateLimit user)
                      (enforceAppCreationRateLimit c))
        (fun error =>
           match error with
           | ThrownError _ _ =>
               respond (createErrorResponse (inr error) 429)
           | ThrownValue v =>
               respond (createErrorResponse (inl (JSON_stringify c v)) 429)
           end) ;;
      record GenerateId ;;
      let agentId := generateId c in
      record (GetUserModelConfigs (id user)) ;;
      record (GetAgentStub agentId) ;;
      both <- promiseAll (getUserModelConfigs c (id user))
                         (getAgentStub c agentId) ;;
      let '(userConfigsRecord, agentInstance) := both in
      let userModelConfigs := collectUserOverrides userConfigsRecord in
      let inferenceContext :=
        {| userModelConfigs := userModelConfigs;
           ic_agentId := agentId;
           userId := id user;
           enableRealtimeCodeFix := true |} in
      template <- await (GetTemplateForQuery inferenceContext query)
                        (getTemplateForQuery c inferenceContext query) ;;
      let websocketUrl :=
        (if String.eqb (protocol url) "https:" then "wss:" else "ws:")
        +:+ "//" +:+ host url +:+ "/api/agent/" +:+ agentId +:+ "/ws" in
      let httpStatusUrl := origin url +:+ "/api/agent/" +:+ agentId in
      perform (writer_write c
                 (startedEvent agentId websocketUrl httpStatusUrl
                    (templateDetails template))) ;;
      perform (launch agentInstance
                 {| init_query := query;
                    init_language :=
                      orField (language body) (language defaultCodeGenArgs);
                    init_frameworks :=
                      orFieldArray (frameworks body)
                        (frameworks defaultCodeGenArgs);
                    init_hostname := hostname;
                    init_inferenceContext := inferenceContext;
                    init_templateInfo :=
                      (templateDetails template, selection template);
                    init_sandboxSessionId := sandboxSessionId template |}
                 (orField (agentMode body) (agentMode defaultCodeGenArgs))) ;;
      ret (StreamResponse 200 streamHeaders)
  end.

(** [startCodeGeneration]: the response sent, and the state the handler
    leaves behind when it returns. *)
Definition startCodeGeneration (request : Request) (context : RouteContext)
    (c : Collaborators) : Response * ServerState :=
  match
    tryCatch (startCodeGeneration_try request context c)
      (fun error => respond (handleError error "start code generation"))
      initialState
  with
  | (Continue response, st) => (response, st)
  | (Respond response, st) => (response, st)
  | (Throw error, st) => (handleError error "start code generation", st)
  end.

(** The progress event [{ chunk }] of one blueprint fragment. *)
Definition chunkEvent (chunk : string) : Json :=
  JsObject [("chunk", JsString chunk)].

(** The [onBlueprintChunk] closure (lines 128-130). *)
Definition onBlueprintChunk (c : Collaborators) (chunk : string)
  : ServerState -> ServerState :=
  writer_write c (chunkEvent chunk).

(** What happens after the handler has returned: the launched
    initialization reports its blueprint fragments, then its promise
    settles. The only reaction registered on the promise is the
    fulfilment callback of [agentPromise.then] (lines 134-138). *)
Definition settle (c : Collaborators) (st : ServerState) : ServerState :=
  match launched st with
  | None => st
  | Some init =>
      let st1 :=
        foldl (fun st chunk => onBlueprintChunk c chunk st) st
          (blueprintChunks init) in
      match settled init with
      | Normal _state => writer_close (writer_write c (JsString "terminate") st1)
      | Abrupt _ => st1
      end
  end.

(** One whole bootstrap: the handler, then the background initialization. *)
Definition bootstrap (request : Request) (context : RouteContext)
    (c : Collaborators) : Response * ServerState :=
  let '(response, st) := startCodeGeneration request context c in
  (response, settle c st).

(** The chunks passed to [writer.write], in order. *)
Definition writes (st : ServerState) : list Json :=
  omap (fun e => match e with WriterWrite chunk => Some chunk | _ => None end)
    (effects st).

(** A progress event is a JSON object, never a bare string. *)
Definition isObject (v : Json) : Prop :=
  match v with
  | JsObject _ => True
  | _ => False
  end.

(** The calls that leave the duplex stream alone. *)
Definition awayFromWriter (e : Effect) : Prop :=
  match e with
  | WriterWrite _ | WriterClose | AgentInitialize _ _ => False
  | _ => True
  end.

(** What the loop at lines 82-93 makes of one entry of the record of
    merged configurations: an entry marked [isUserOverride] is forwarded
    under its key, reduced to the five fields of a [ModelConfig]; any other
    entry is forwarded not at all. *)
Definition forwarded (entry : string * MergedModelConfig)
  : option (string * ModelConfig) :=
  if isUserOverride (snd entry) then
    Some (fst entry,
          {| mc_name := name (snd entry);
             mc_max_tokens := max_tokens (snd entry);
             mc_temperature := temperature (snd entry);
             mc_reasoning_effort := reasoning_effort (snd entry);
             mc_fallbackModel := fallbackModel (snd entry) |})
  else None.

(** The chunks of a sequence of writes that come before the first
    sentinel. *)
Fixpoint beforeSentinel (chunks : list Json) : list Json :=
  match chunks with
  | [] => []
  | chunk :: rest =>
      if strictEqualsString chunk "terminate" then []
      else chunk :: beforeSentinel rest
  end.

(** Whether the sentinel is among the chunks of a sequence of writes. *)
Definition hasSentinel (chunks : list Json) : bool :=
  existsb (fun chunk => strictEqualsString chunk "terminate") chunks.

End Bootstrap.

(** ** Conversational turn processor: [UserConversationProcessor] *)

Module Conversation.

(** *** Messages, arrays of messages, and the world of a turn *)

Inductive Role : Type :=
| RoleUser
| RoleAssistant
| RoleSystem
| RoleTool.

(** [message.content]: a string, or something that is not a string. *)
Inductive MessageContent : Type :=
| TextContent (text : string)
| StructuredContent (parts : Json)
| NullContent.

(** Modelled from the spec: the type [ConversationMessage]
    (inferutils/common) is not among the sources. Per the spec a message
    has a role, a content (text or structured payload) and a correlation
    id; [other] stands for whatever further properties a message object
    carries (tool-call traces and the like). *)
Record ConversationMessage : Type := {
  role : Role;
  content : MessageContent;
  conversationId : option string;
  other : list (string * Json)
}.

(** Modelled from the spec: [createUserMessage] (inferutils/common) is not
    among the sources; it builds the user-role message of a text. *)
Definition createUserMessage (text : string) : ConversationMessage :=
  {| role := RoleUser; content := TextContent text;
     conversationId := None; other := [] |}.

(** Modelled from the spec: [createAssistantMessage] (inferutils/common)
    is not among the sources; it builds the assistant-role message of a
    text. *)
Definition createAssistantMessage (text : string) : ConversationMessage :=
  {| role := RoleAssistant; content := TextContent text;
     conversationId := None; other := [] |}.

(** [{...message, conversationId: id}] *)
Definition withConversationId (message : ConversationMessage) (id : string)
  : ConversationMessage :=
  {| role := role message; content := content message;
     conversationId := Some id; other := other message |}.

(** The test of the [filter] at line 166:
    [message.role === 'assistant' && typeof(message.content) === 'string'
     && message.content.includes('Internal Memo')]. *)
Definition isInternalMemo (message : ConversationMessage) : bool :=
  match role message, content message with
  | RoleAssistant, TextContent text => includes text "Internal Memo"
  | _, _ => false
  end.

(** Array objects are addressed by location. *)
Abbreviation loc := nat.

Inductive ToolStatus : Type :=
| StatusStart
| StatusSuccess
| StatusError.

(** The optional fourth argument of [conversationResponseCallback]. *)
Record ToolEvent : Type := {
  tool_name : string;
  status : ToolStatus;
  args : option Json
}.

(** One invocation of [inputs.conversationResponseCallback]. *)
Record CallbackCall : Type := {
  cb_message : string;
  cb_conversationId : string;
  isStreaming : bool;
  tool : option ToolEvent
}.

(** The data passed to [executeInference] ([env] and the inference context
    are opaque and left out). *)
Record InferenceRequest : Type := {
  request_messages : list ConversationMessage;
  agentActionName : string;
  tool_names : list string;
  chunk_size : nat
}.

(** What a turn can reach outside its own local variables: the arrays of
    messages, the number of ids drawn from [IdGenerator] so far, the
    requests made to the inference engine, and the invocations of the
    consumer's callback (both oldest first). *)
Record World : Type := {
  heap : gmap loc (list ConversationMessage);
  idCalls : nat;
  inferenceRequests : list InferenceRequest;
  callbackCalls : list CallbackCall
}.

(** The two [let] variables of [execute] (lines 100-101) that the closures
    handed to the inference engine assign. *)
Record TurnLocals : Type := {
  extractedUserResponse : string;
  extractedEnhancedRequest : string
}.

(** What a closure created inside [execute] can read and write. *)
Definition Frame : Type := TurnLocals * World.

(** *** Tool definitions *)

Record SchemaProperty : Type := {
  property_type : string;
  minLength : option nat;
  property_description : string
}.

Record ParameterSchema : Type := {
  schema_type : string;
  additionalProperties : bool;
  properties : list (string * SchemaProperty);
  required : list string
}.

Record FunctionSpec : Type := {
  function_name : string;
  function_description : string;
  parameters : ParameterSchema
}.

(** [ToolDefinition<TArgs, TResult>] (tools/types), with the optional
    lifecycle hooks. *)
Record ToolDefinition (TArgs TResult : Type) : Type := {
  tool_type : string;
  tool_function : FunctionSpec;
  implementation : TArgs -> Frame -> Completion TResult * Frame;
  onStart : option (TArgs -> Frame -> Frame);
  onComplete : option (TArgs -> TResult -> Frame -> Frame)
}.

Arguments tool_type {TArgs TResult} _.
Arguments tool_function {TArgs TResult} _.
Arguments implementation {TArgs TResult} _ _ _.
Arguments onStart {TArgs TResult} _.
Arguments onComplete {TArgs TResult} _.

Record EditAppArgs : Type := { modificationRequest : string }.

(** What the implementation of the edit tool returns: [{content: ...}]. *)
Record EditAppResult : Type := { result_content : string }.

Definition editAppDescription : string :=
  "The changes needed to be made to the app. Please don't supply any code level or implementation details. Provide detailed requirements and description of the changes you want to make.".

Definition editAppAcknowledgement : string :=
  "Modification request queued successfully, will be implemented in the next phase of development.".

(** [buildEditAppTool(stateMutator)] (lines 61-86). *)
Definition buildEditAppTool (stateMutator : string -> Frame -> Frame)
  : ToolDefinition EditAppArgs EditAppResult :=
  {| tool_type := "function";
     tool_function :=
       {| function_name := "queue_request";
          function_description :=
            "Queue up modification requests or changes, to be implemented in the next development phase";
          parameters :=
            {| schema_type := "object";
               additionalProperties := false;
               properties :=
                 [("modificationRequest",
                   {| property_type := "string";
                      minLength := Some 8;
                      property_description := editAppDescription |})];
               required := ["modificationRequest"] |} |};
     implementation :=
       fun args frame =>
         let frame' := stateMutator (modificationRequest args) frame in
         (Normal {| result_content := editAppAcknowledgement |}, frame');
     onStart := None;
     onComplete := None |}.

(** A tool defined in another module ([toolWebSearchDefinition],
    [toolWeatherDefinition]): its implementation cannot reach the local
    variables of a turn, nor the message arrays. *)
Record ExternalTool : Type := {
  external_function : FunctionSpec;
  external_implementation : Json -> Completion Json
}.

Definition externalTool (t : ExternalTool) : ToolDefinition Json Json :=
  {| tool_type := "function";
     tool_function := external_function t;
     implementation := fun args frame => (external_implementation t args, frame);
     onStart := None;
     onComplete := None |}.

(** [inputs.conversationResponseCallback(message, conversationId,
    isStreaming, tool)]: the consumer's callback is invoked, and returns. *)
Definition conversationResponseCallback (message conversationId : string)
    (streaming : bool) (event : option ToolEvent) (frame : Frame) : Frame :=
  let '(locals, w) := frame in
  (locals,
   {| heap := heap w; idCalls := idCalls w;
      inferenceRequests := inferenceRequests w;
      callbackCalls :=
        callbackCalls w ++
        [{| cb_message := message; cb_conversationId := conversationId;
            isStreaming := streaming; tool := event |}] |}).

(** [attachLifecycle(td)] (lines 108-122); [asRecord] is the cast
    [args as Record<string, unknown>]. *)
Definition attachLifecycle {TArgs TResult : Type} (aiConversationId : string)
    (asRecord : TArgs -> Json) (td : ToolDefinition TArgs TResult)
  : ToolDefinition TArgs TResult :=
  {| tool_type := tool_type td;
     tool_function := tool_function td;
     implementation := implementation td;
     onStart :=
       Some (fun args =>
               conversationResponseCallback EmptyString aiConversationId false
                 (Some {| tool_name := function_name (tool_function td);
                          status := StatusStart;
                          args := Some (asRecord args) |}));
     onComplete :=
       Some (fun args _result =>
               conversationResponseCallback EmptyString aiConversationId false
                 (Some {| tool_name := function_name (tool_function td);
                          status := StatusSuccess;
                          args := Some (asRecord args) |})) |}.

Definition editAppArgsAsRecord (a : EditAppArgs) : Json :=
  JsObject [("modificationRequest", JsString (modificationRequest a))].

(** The three elements of a [tools] array. *)
Record Tools : Type := {
  webSearch : ToolDefinition Json Json;
  weather : ToolDefinition Json Json;
  queueRequest : ToolDefinition EditAppArgs EditAppResult
}.

(** *** The inference engine, as the turn sees it *)

(** A call the engine makes to one tool definition it was given. *)
Inductive ToolStep (TArgs TResult : Type) : Type :=
| CallOnStart (a : TArgs)
| CallImplementation (a : TArgs)
| CallOnComplete (a : TArgs) (result : TResult).

Arguments CallOnStart {TArgs TResult} a.
Arguments CallImplementation {TArgs TResult} a.
Arguments CallOnComplete {TArgs TResult} a result.

(** A call the engine makes to one of the closures handed to it by
    [execute]: [stream.onChunk], or a member of one of the three tools. *)
Inductive EngineStep : Type :=
| OnChunk (chunk : string)
| WebSearchStep (step : ToolStep Json Json)
| WeatherStep (step : ToolStep Json Json)
| QueueRequestStep (step : ToolStep EditAppArgs EditAppResult).

(** The value [executeInference] resolves to: [{string, newMessages}]. *)
Record InferenceResult : Type := {
  result_string : string;
  newMessages : option (list ConversationMessage)
}.

(** One run of [executeInference]: the calls it makes to the closures, in
    order, and how it ends. *)
Record InferenceRun : Type := {
  steps : list EngineStep;
  outcome : Completion InferenceResult
}.

Inductive ProjectUpdateType : Type :=
| PHASE_IMPLEMENTING
| PHASE_IMPLEMENTED
| CODE_REVIEW
| FILE_REGENERATING
| FILE_REGENERATED
| DEPLOYMENT_COMPLETED
| COMMAND_EXECUTING.

(** The collaborators of the processor, as oracles. *)
Record Collaborators : Type := {
  (** the outcome of the [n]-th call (from 0) of
      [IdGenerator.generateConversationId()] *)
  conversationIds : nat -> Completion string;
  (** [getSystemPromptWithProjectContext(SYSTEM_PROMPT, context, false)] *)
  getSystemPromptWithProjectContext : Completion (list ConversationMessage);
  (** the behaviour of the [n]-th call (from 0) of [executeInference] *)
  inference : nat -> InferenceRun;
  toolWebSearchDefinition : ExternalTool;
  toolWeatherDefinition : ExternalTool;
  (** the string constants [WebSocketMessageResponses.*] (agents/constants) *)
  WebSocketMessageResponses : ProjectUpdateType -> string
}.

Definition CHUNK_SIZE : nat := 64.

Definition FALLBACK_USER_RESPONSE : string :=
  "I understand you'd like to make some changes to your project. Let me make sure this is incorporated in the next phase of development.".

(** *** Computations of a turn: state and exceptions *)

Definition M (A : Type) : Type := World -> Completion A * World.

Definition ret {A : Type} (a : A) : M A := fun w => (Normal a, w).

Definition bind {A B : Type} (m : M A) (k : A -> M B) : M B :=
  fun w =>
    match m w with
    | (Normal a, w') => k a w'
    | (Abrupt error, w') => (Abrupt error, w')
    end.

(** [throw error;] *)
Definition throw {A : Type} (error : Thrown) : M A :=
  fun w => (Abrupt error, w).

(** [try { body } catch (error) { handler }] *)
Definition tryCatch {A : Type} (body : M A) (handler : Thrown -> M A) : M A :=
  fun w =>
    match body w with
    | (Normal a, w') => (Normal a, w')
    | (Abrupt error, w') => handler error w'
    end.

(** The outcome of an external call that leaves the world as it is. *)
Definition liftCompletion {A : Type} (outcome : Completion A) : M A :=
  fun w => (outcome, w).

Declare Scope turn_scope.
Delimit Scope turn_scope with turn.
Notation "x <- m ;; k" := (bind m (fun x => k))
  (at level 100, m at next level, right associativity) : turn_scope.
Notation "m ;; k" := (bind m (fun _ => k))
  (at level 100, right associativity) : turn_scope.

Local Open Scope turn_scope.

(** [mapM f l]: [l.map(f)] for an [f] with effects, left to right. *)
Fixpoint mapM {A B : Type} (f : A -> M B) (l : list A) : M (list B) :=
  match l with
  | [] => ret []
  | x :: rest =>
      y <- f x ;;
      ys <- mapM f rest ;;
      ret (y :: ys)
  end.

(** The error of spreading or pushing to something that is no array. *)
Definition notAnArray : Thrown := ThrownError GenericError "not an array".

(** [[...array]]: the elements of the array object at [l]. *)
Definition spread (l : loc) : M (list ConversationMessage) :=
  fun w =>
    match heap w !! l with
    | Some items => (Normal items, w)
    | None => (Abrupt notAnArray, w)
    end.

(** An array literal: a new array object. *)
Definition newArray (items : list ConversationMessage) : M loc :=
  fun w =>
    let l := fresh (dom (heap w)) in
    (Normal l,
     {| heap := <[l := items]> (heap w); idCalls := idCalls w;
        inferenceRequests := inferenceRequests w;
        callbackCalls := callbackCalls w |}).

(** [array.push(...items)], in place. *)
Definition push (l : loc) (items : list ConversationMessage) : M unit :=
  fun w =>
    match heap w !! l with
    | Some old =>
        (Normal tt,
         {| heap := <[l := old ++ items]> (heap w); idCalls := idCalls w;
            inferenceRequests := inferenceRequests w;
            callbackCalls := callbackCalls w |})
    | None => (Abrupt notAnArray, w)
    end.

Section Processor.

Variable c : Collaborators.

(** [IdGenerator.generateConversationId()] *)
Definition generateConversationId : M string :=
  fun w =>
    (conversationIds c (idCalls w),
     {| heap := heap w; idCalls := S (idCalls w);
        inferenceRequests := inferenceRequests w;
        callbackCalls := callbackCalls w |}).

(** The state mutator [execute] gives to [buildEditAppTool]
    (lines 126-129). *)
Definition editAppStateMutator (request : string) (frame : Frame) : Frame :=
  let '(locals, w) := frame in
  ({| extractedUserResponse := extractedUserResponse locals;
      extractedEnhancedRequest := request |}, w).

(** The [tools] array built in [execute] (lines 123-130). *)
Definition turnTools (aiConversationId : string) : Tools :=
  {| webSearch :=
       attachLifecycle aiConversationId (fun a => a)
         (externalTool (toolWebSearchDefinition c));
     weather :=
       attachLifecycle aiConversationId (fun a => a)
         (externalTool (toolWeatherDefinition c));
     queueRequest :=
       attachLifecycle aiConversationId editAppArgsAsRecord
         (buildEditAppTool editAppStateMutator) |}.

(** The [stream.onChunk] closure (lines 145-149). *)
Definition onChunk (aiConversationId : string) (chunk : string) (frame : Frame)
  : Frame :=
  let '(locals, w) :=
    conversationResponseCallback chunk aiConversationId true None frame in
  ({| extractedUserResponse := extractedUserResponse locals +:+ chunk;
      extractedEnhancedRequest := extractedEnhancedRequest locals |}, w).

(** The engine calling one member of a tool definition. *)
Definition runToolStep {TArgs TResult : Type} (td : ToolDefinition TArgs TResult)
    (step : ToolStep TArgs TResult) (frame : Frame) : Frame :=
  match step with
  | CallOnStart a =>
      match onStart td with
      | Some hook => hook a frame
      | None => frame
      end
  | CallImplementation a => snd (implementation td a frame)
  | CallOnComplete a result =>
      match onComplete td with
      | Some hook => hook a result frame
      | None => frame
      end
  end.

(** The engine calling one of the closures [execute] handed to it. *)
Definition runEngineStep (tools : Tools) (chunkHandler : string -> Frame -> Frame)
    (step : EngineStep) (frame : Frame) : Frame :=
  match step with
  | OnChunk chunk => chunkHandler chunk frame
  | WebSearchStep s => runToolStep (webSearch tools) s frame
  | WeatherStep s => runToolStep (weather tools) s frame
  | QueueRequestStep s => runToolStep (queueRequest tools) s frame
  end.

(** [await executeInference({messages, agentActionName, tools,
    stream: {onChunk, chunk_size}})]: the request is made, the engine
    makes its calls to the closures, then resolves or rejects. The local variables as the closures
    left them come back with the result. *)
Definition executeInference (messages : list ConversationMessage)
    (actionName : string) (tools : Tools)
    (chunkHandler : string -> Frame -> Frame) (size : nat)
    (locals : TurnLocals) : M (InferenceResult * TurnLocals) :=
  fun w =>
    let request :=
      {| request_messages := messages;
         agentActionName := actionName;
         tool_names :=
           [function_name (tool_function (webSearch tools));
            function_name (tool_function (weather tools));
            function_name (tool_function (queueRequest tools))];
         chunk_size := size |} in
    let run := inference c (length (inferenceRequests w)) in
    let called :=
      {| heap := heap w; idCalls := idCalls w;
         inferenceRequests := inferenceRequests w ++ [request];
         callbackCalls := callbackCalls w |} in
    let '(locals', w') :=
      foldl (fun frame step => runEngineStep tools chunkHandler step frame)
        (locals, called) (steps run) in
    match outcome run with
    | Normal result => (Normal (result, locals'), w')
    | Abrupt error => (Abrupt error, w')
    end.

(** [ConversationalResponseType] *)
Record ConversationalResponseType : Type := {
  enhancedUserRequest : string;
  userResponse : string
}.

Record UserConversationInputs : Type := {
  userMessage : string;
  pastMessages : loc
}.

Record UserConversationOutputs : Type := {
  conversationResponse : ConversationalResponseType;
  messages : loc
}.

(** The new messages that are kept (line 166):
    [result.newMessages?.filter(...) || []]. *)
Definition keptNewMessages (result : InferenceResult) : list ConversationMessage :=
  match newMessages result with
  | Some new => List.filter (fun message => negb (isInternalMemo message)) new
  | None => []
  end.

(** The body of the [try] of [execute] (lines 97-174). *)
Definition execute_try (inputs : UserConversationInputs)
  : M UserConversationOutputs :=
  systemPrompts <- liftCompletion (getSystemPromptWithProjectContext c) ;;
  past <- spread (pastMessages inputs) ;;
  userId <- generateConversationId ;;
  messages <- newArray
    (past ++ [withConversationId (createUserMessage (userMessage inputs)) userId]) ;;
  let locals0 :=
    {| extractedUserResponse := EmptyString;
       extractedEnhancedRequest := EmptyString |} in
  aiConversationId <- generateConversationId ;;
  let tools := turnTools aiConversationId in
  current <- spread messages ;;
  answer <- executeInference (systemPrompts ++ current) "conversationalResponse"
              tools (onChunk aiConversationId) CHUNK_SIZE locals0 ;;
  let '(result, locals) := answer in
  let conversationResponse :=
    {| enhancedUserRequest := extractedEnhancedRequest locals;
       userResponse := extractedUserResponse locals |} in
  tagged <- mapM
    (fun message =>
       id <- generateConversationId ;;
       ret (withConversationId message id))
    (keptNewMessages result) ;;
  push messages tagged ;;
  finalId <- generateConversationId ;;
  push messages
    [withConversationId (createAssistantMessage (result_string result)) finalId] ;;
  ret {| conversationResponse := conversationResponse; messages := messages |}.

(** The [catch] block of [execute] (lines 175-193). *)
Definition execute_catch (inputs : UserConversationInputs) (error : Thrown)
  : M UserConversationOutputs :=
  if instanceofRateLimitExceededError error || instanceofSecurityError error
  then throw error
  else
    past <- spread (pastMessages inputs) ;;
    userId <- generateConversationId ;;
    assistantId <- generateConversationId ;;
    messages <- newArray
      (past ++
       [withConversationId (createUserMessage (userMessage inputs)) userId;
        withConversationId (createAssistantMessage FALLBACK_USER_RESPONSE)
          assistantId]) ;;
    ret {| conversationResponse :=
             {| enhancedUserRequest := "User request: " +:+ userMessage inputs;
                userResponse := FALLBACK_USER_RESPONSE |};
           messages := messages |}.

(** [UserConversationProcessor.execute(inputs, options)] *)
Definition execute (inputs : UserConversationInputs) : M UserConversationOutputs :=
  tryCatch (execute_try inputs) (execute_catch inputs).

(** The text of the memo built at lines 200-202. *)
Definition preparedMessage (updateType : ProjectUpdateType) : string :=
  "**<Internal Memo>**" +:+ newline +:+
  "Project Updates: " +:+ WebSocketMessageResponses c updateType +:+ newline +:+
  "</Internal Memo>".

(** [UserConversationProcessor.processProjectUpdates(updateType, _data,
    logger)] (lines 196-213); the array it returns is given by its
    elements. *)
Definition processProjectUpdates (updateType : ProjectUpdateType) (_data : Json)
  : M (list ConversationMessage) :=
  tryCatch
    (id <- generateConversationId ;;
     ret [{| role := RoleAssistant;
             content := TextContent (preparedMessage updateType);
             conversationId := Some id;
             other := [] |}])
    (fun error => ret []).

(** [RelevantProjectUpdateWebsoketMessages] (lines 36-44). *)
Definition RelevantProjectUpdateWebsoketMessages : list string :=
  [WebSocketMessageResponses c PHASE_IMPLEMENTING;
   WebSocketMessageResponses c PHASE_IMPLEMENTED;
   WebSocketMessageResponses c CODE_REVIEW;
   WebSocketMessageResponses c FILE_REGENERATING;
   WebSocketMessageResponses c FILE_REGENERATED;
   WebSocketMessageResponses c DEPLOYMENT_COMPLETED;
   WebSocketMessageResponses c COMMAND_EXECUTING].

(** [UserConversationProcessor.isProjectUpdateType(type)] (lines 215-217):
    [Array.prototype.includes] compares with SameValueZero, under which a
    value that is no string equals none of the names. *)
Definition isProjectUpdateType (type : Json) : bool :=
  match type with
  | JsString name => existsb (String.eqb name) RelevantProjectUpdateWebsoketMessages
  | _ => false
  end.

End Processor.

(** *** Vocabulary of the properties *)

(** Every call of the id generator returns an id. *)
Definition idsAvailable (c : Collaborators) : Prop :=
  forall n, exists id, conversationIds c n = Normal id.

(** The id generator never returns the same id twice. *)
Definition idsFresh (c : Collaborators) : Prop :=
  forall m n id,
    conversationIds c m = Normal id -> conversationIds c n = Normal id -> m = n.

(** The id returned by the [n]-th call of the id generator. *)
Definition idAt (c : Collaborators) (n : nat) : string :=
  match conversationIds c n with
  | Normal id => id
  | Abrupt _ => EmptyString
  end.

(** The fragments streamed during a run of the engine, in order. *)
Definition streamedChunks (steps : list EngineStep) : list string :=
  omap (fun step => match step with OnChunk chunk => Some chunk | _ => None end)
    steps.

(** The full text of the fragments streamed during a run. *)
Definition streamedText (steps : list EngineStep) : string :=
  foldr String.append EmptyString (streamedChunks steps).

(** The modification requests handed to the implementation of the edit
    tool during a run, in order. *)
Definition queuedRequests (steps : list EngineStep) : list string :=
  omap (fun step =>
          match step with
          | QueueRequestStep (CallImplementation a) => Some (modificationRequest a)
          | _ => None
          end)
    steps.

(** The history of a turn once the user message is appended (line 98). *)
Definition withUserMessage (c : Collaborators) (inputs : UserConversationInputs)
    (w : World) (past : list ConversationMessage) : list ConversationMessage :=
  past ++
  [withConversationId (createUserMessage (userMessage inputs)) (idAt c (idCalls w))].

(** Every array of [w] is still there, with the same elements, in [w']. *)
Definition arraysKept (w w' : World) : Prop :=
  forall l items, heap w !! l = Some items -> heap w' !! l = Some items.

(** A call of the response callback as a turn makes them (lines 110-121
    and 147): under the id of the turn, and either a streamed fragment,
    without tool, or the notification of a tool, not streamed, with an
    empty message, the arguments of the call and a status that is never
    [error]. *)
Definition fromTurn (aiConversationId : string) (call : CallbackCall) : Prop :=
  cb_conversationId call = aiConversationId /\
  match tool call with
  | None => isStreaming call = true
  | Some event =>
      isStreaming call = false /\ cb_message call = EmptyString /\
      status event <> StatusError /\ args event <> None
  end.

(** The messages of the streaming calls among the calls of the response
    callback, in order. *)
Definition streamingMessages (calls : list CallbackCall) : list string :=
  omap (fun call => if isStreaming call then Some (cb_message call) else None) calls.

(** The messages a successful turn appends to the history (lines 98, 165-168),
    [first] being the number of ids drawn before the turn: the user message,
    the new messages that are kept, the final assistant message. The id
    drawn in between, at [first + 1], is the id of the turn. *)
Definition appendedBy (c : Collaborators) (text : string) (result : InferenceResult)
    (first : nat) : list ConversationMessage :=
  [withConversationId (createUserMessage text) (idAt c first)]
  ++ zip_with withConversationId (keptNewMessages result)
       (idAt c <$> seq (first + 2) (length (keptNewMessages result)))
  ++ [withConversationId (createAssistantMessage (result_string result))
        (idAt c (first + 2 + length (keptNewMessages result)))].

(** The calls of the id generator whose ids go to the messages of
    [appendedBy], [count] new messages being kept. *)
Definition turnIndices (first count : nat) : list nat :=
  first :: seq (first + 2) count ++ [first + 2 + count].

(** A computation that neither calls the inference engine nor the
    response callback. *)
Definition quiet {A : Type} (m : M A) : Prop :=
  forall w r w',
    m w = (r, w') ->
    inferenceRequests w' = inferenceRequests w /\ callbackCalls w' = callbackCalls w.

End Conversation.

(** ** Sample inputs

    Concrete requests, collaborators and engine runs on which the
    embedding is evaluated. *)

Module Samples.

Import EventStream.

(** A serializer that is enough to tell the written values apart: strings
    in quotes, objects and arrays by their brackets, no escaping. *)
Fixpoint sampleStringify (fuel : nat) (v : Json) : string :=
  match fuel with
  | O => EmptyString
  | S fuel' =>
      match v with
      | JsNull => "null"
      | JsBool true => "true"
      | JsBool false => "false"
      | JsNumber n => pretty n
      | JsString s => Bootstrap.quote +:+ s +:+ Bootstrap.quote
      | JsArray items =>
          "[" +:+ String.concat "," (map (sampleStringify fuel') items) +:+ "]"
      | JsObject fields =>
          "{" +:+
          String.concat ","
            (map (fun kv => Bootstrap.quote +:+ fst kv +:+ Bootstrap.quote +:+ ":"
                            +:+ sampleStringify fuel' (snd kv)) fields)
          +:+ "}"
      end
  end.

Definition stringify : Json -> string := sampleStringify 8.

Definition sampleRequest : Bootstrap.Request :=
  {| Bootstrap.url :=
       {| Bootstrap.protocol := "https:";
          Bootstrap.hostname := "build.example.com";
          Bootstrap.port := EmptyString;
          Bootstrap.host := "build.example.com";
          Bootstrap.origin := "https://build.example.com" |} |}.

Definition sampleContext : Bootstrap.RouteContext :=
  {| Bootstrap.user := {| Bootstrap.id := "user-1" |};
     Bootstrap.config_security_rateLimit := JsNull |}.

Definition sampleBody : Bootstrap.CodeGenArgs :=
  {| Bootstrap.query := Some "build a todo list";
     Bootstrap.language := None;
     Bootstrap.frameworks := None;
     Bootstrap.selectedTemplate := None;
     Bootstrap.agentMode := None |}.

Definition sampleTemplate : Bootstrap.TemplateSelection :=
  {| Bootstrap.sandboxSessionId := "sandbox-1";
     Bootstrap.templateDetails :=
       {| Bootstrap.template_name := "vite-react";
          Bootstrap.template_files := JsArray [JsString "src/App.tsx"] |};
     Bootstrap.selection := JsNull |}.

(** Collaborators that all answer, the quota engine and the agent's
    initialization being given. *)
Definition collaboratorsWith (quota : Completion unit)
    (init : Bootstrap.AgentInitialization) : Bootstrap.Collaborators :=
  {| Bootstrap.JSON_stringify := stringify;
     Bootstrap.JSON_stringify_indented := fun _ => "{}";
     Bootstrap.getPreviewDomain := "preview.example.com";
     Bootstrap.request_json := Normal sampleBody;
     Bootstrap.enforceAppCreationRateLimit := quota;
     Bootstrap.generateId := "agent-1";
     Bootstrap.getUserModelConfigs := fun _ => Normal [];
     Bootstrap.getAgentStub :=
       fun _ => Normal {| Bootstrap.initialize := fun _ _ => init |};
     Bootstrap.getTemplateForQuery := fun _ _ => Normal sampleTemplate |}.

Definition quotaError : Thrown :=
  ThrownError RateLimitExceededError "App creation limit reached".

(** The quota engine rejects. *)
Definition overQuota : Bootstrap.Collaborators :=
  collaboratorsWith (Abrupt quotaError)
    {| Bootstrap.blueprintChunks := []; Bootstrap.settled := Normal tt |}.

(** The agent reports two blueprint fragments, then its initialization
    is fulfilled. *)
Definition initializationFulfils : Bootstrap.Collaborators :=
  collaboratorsWith (Normal tt)
    {| Bootstrap.blueprintChunks := ["# Plan"; "1. Layout"];
       Bootstrap.settled := Normal tt |}.

(** The agent reports one blueprint fragment, then its initialization is
    rejected. *)
Definition initializationRejects : Bootstrap.Collaborators :=
  collaboratorsWith (Normal tt)
    {| Bootstrap.blueprintChunks := ["# Plan"];
       Bootstrap.settled := Abrupt (ThrownError GenericError "sandbox unavailable") |}.

End Samples.

Module TurnSamples.

Import Conversation.

Definition sampleTool (name : string) : ExternalTool :=
  {| external_function :=
       {| function_name := name;
          function_description := EmptyString;
          parameters :=
            {| schema_type := "object"; additionalProperties := false;
               properties := []; required := [] |} |};
     external_implementation := fun _ => Normal JsNull |}.

(** An id generator that counts. *)
Definition sequentialIds (n : nat) : Completion string :=
  Normal ("conv-" +:+ pretty n).

(** An id generator that is out of order. *)
Definition brokenIds (n : nat) : Completion string :=
  Abrupt (ThrownError GenericError "crypto unavailable").

Definition updateNames (updateType : ProjectUpdateType) : string :=
  match updateType with
  | PHASE_IMPLEMENTING => "phase_implementing"
  | PHASE_IMPLEMENTED => "phase_implemented"
  | CODE_REVIEW => "code_review"
  | FILE_REGENERATING => "file_regenerating"
  | FILE_REGENERATED => "file_regenerated"
  | DEPLOYMENT_COMPLETED => "deployment_completed"
  | COMMAND_EXECUTING => "command_executing"
  end.

Definition systemPrompt : list ConversationMessage :=
  [{| role := RoleSystem; content := TextContent "You are Orange.";
      conversationId := None; other := [] |}].

(** Collaborators of a turn, the id generator and the run of the engine
    being given. *)
Definition processorWith (ids : nat -> Completion string) (run : InferenceRun)
  : Collaborators :=
  {| conversationIds := ids;
     getSystemPromptWithProjectContext := Normal systemPrompt;
     inference := fun _ => run;
     toolWebSearchDefinition := sampleTool "web_search";
     toolWeatherDefinition := sampleTool "get_weather";
     WebSocketMessageResponses := updateNames |}.

(** The history before the turn: one exchange. *)
Definition earlier : list ConversationMessage :=
  [{| role := RoleUser; content := TextContent "build a todo list";
      conversationId := Some "conv-a"; other := [] |};
   {| role := RoleAssistant; content := TextContent "Here is the plan.";
      conversationId := Some "conv-b"; other := [] |}].

Definition sampleWorld : World :=
  {| heap := {[ 0 := earlier ]}; idCalls := 0;
     inferenceRequests := []; callbackCalls := [] |}.

Definition sampleTurn : UserConversationInputs :=
  {| userMessage := "add a dark mode toggle"; pastMessages := 0 |}.

(** The engine of the example of the spec: two fragments, no tool call. *)
Definition darkModeRun : InferenceRun :=
  {| steps := [OnChunk "Sure, "; OnChunk "adding it now."];
     outcome :=
       Normal {| result_string := "Sure, adding it now."; newMessages := None |} |}.

Definition editArgs : EditAppArgs :=
  {| modificationRequest := "Add a dark mode toggle to the header" |}.

Definition memo : ConversationMessage :=
  {| role := RoleAssistant;
     content := TextContent "**<Internal Memo>** Project Updates: phase_implemented";
     conversationId := None; other := [] |}.

(** The new messages of a round with one tool call, and a memo among them. *)
Definition toolTrace : list ConversationMessage :=
  [{| role := RoleAssistant; content := NullContent; conversationId := None;
      other := [("tool_calls", JsArray [JsString "queue_request"])] |};
   memo;
   {| role := RoleTool; content := TextContent editAppAcknowledgement;
      conversationId := None; other := [("name", JsString "queue_request")] |}].

(** An engine that streams a first text, calls the edit tool, streams a
    second text, and resolves to that second text. *)
Definition queueRun : InferenceRun :=
  {| steps :=
       [OnChunk "Let me queue that. ";
        QueueRequestStep (CallOnStart editArgs);
        QueueRequestStep (CallImplementation editArgs);
        QueueRequestStep
          (CallOnComplete editArgs {| result_content := editAppAcknowledgement |});
        OnChunk "Queued."];
     outcome :=
       Normal {| result_string := "Queued."; newMessages := Some toolTrace |} |}.

(** An engine that streams one fragment and then fails. *)
Definition failingRun (error : Thrown) : InferenceRun :=
  {| steps := [OnChunk "Sure, "]; outcome := Abrupt error |}.

Definition engineTimeout : Thrown := ThrownError GenericError "inference timed out".

Definition overLimit : Thrown :=
  ThrownError RateLimitExceededError "LLM calls limit reached".

End TurnSamples.

(** ** Further sample inputs *)

Module CoverageSamples.

Import Bootstrap.

(** The collaborators [c], the body of the request being given. *)
Definition withBody (answer : Completion CodeGenArgs) (c : Collaborators)
  : Collaborators :=
  {| JSON_stringify := JSON_stringify c;
     JSON_stringify_indented := JSON_stringify_indented c;
     getPreviewDomain := getPreviewDomain c;
     request_json := answer;
     enforceAppCreationRateLimit := enforceAppCreationRateLimit c;
     generateId := generateId c;
     getUserModelConfigs := getUserModelConfigs c;
     getAgentStub := getAgentStub c;
     getTemplateForQuery := getTemplateForQuery c |}.

Definition syntaxError : Thrown :=
  ThrownError GenericError "Unexpected end of JSON input".

(** The body of the request is no JSON. *)
Definition unreadableBody : Collaborators :=
  withBody (Abrupt syntaxError) Samples.initializationFulfils.


(** A body that makes its own choices, the language being left empty. *)
Definition chosenBody : CodeGenArgs :=
  {| query := Some "build a blog";
     language := Some EmptyString;
     frameworks := Some ["vue"];
     selectedTemplate := Some "minimal";
     agentMode := Some "smart" |}.

Definition withChoices : Collaborators :=
  withBody (Normal chosenBody) Samples.initializationFulfils.

Definition templateError : Thrown := ThrownError GenericError "no template matches".

(** The selection of the template fails. *)
Definition noTemplate : Collaborators :=
  {| JSON_stringify := Samples.stringify;
     JSON_stringify_indented := fun _ => "{}";
     getPreviewDomain := "preview.example.com";
     request_json := Normal Samples.sampleBody;
     enforceAppCreationRateLimit := Normal tt;
     generateId := "agent-1";
     getUserModelConfigs := fun _ => Normal [];
     getAgentStub :=
       fun _ =>
         Normal {| initialize :=
                     fun _ _ => {| blueprintChunks := []; settled := Normal tt |} |};
     getTemplateForQuery := fun _ _ => Abrupt templateError |}.

(** A stream that has just been constructed. *)
Definition openStream : ServerState :=
  {| effects := [];
     stream := Some {| controller := EventStream.newController; writerClosed := false |};
     launched := None |}.

End CoverageSamples.

Module TurnCoverageSamples.

Import Conversation TurnSamples.

(** The system prompt cannot be built. *)
Definition promptFails (error : Thrown) : Collaborators :=
  {| conversationIds := sequentialIds;
     getSystemPromptWithProjectContext := Abrupt error;
     inference := fun _ => darkModeRun;
     toolWebSearchDefinition := sampleTool "web_search";
     toolWeatherDefinition := sampleTool "get_weather";
     WebSocketMessageResponses := updateNames |}.

Definition promptError : Thrown := ThrownError GenericError "no project context".

Definition idError : Thrown := ThrownError GenericError "crypto unavailable".

(** An id generator that answers twice and then is out of order. *)
Definition twoIds (n : nat) : Completion string :=
  if Nat.ltb n 2 then sequentialIds n else Abrupt idError.

End TurnCoverageSamples.

(** * Properties *)

(** ** The transformer of the duplex stream *)

Module EventStreamProperties.

Import EventStream.



End EventStreamProperties.

(** ** Session bootstrap *)

Module BootstrapProperties.

Import EventStream Bootstrap.

Section Handler.

Variables (request : Request) (context : RouteContext) (c : Collaborators).

(** The state in which a handler that answers with the stream leaves:
    one progress event written, the initialization launched, the stream
    open. *)
Lemma startCodeGeneration_stream_state status headers :
  fst (startCodeGeneration request context c) = StreamResponse status headers ->
  exists pre started args mode init,
    effects (snd (startCodeGeneration request context c)) =
      pre ++ [WriterWrite started; AgentInitialize args mode] /\
    Forall awayFromWriter pre /\
    isObject started /\
    stream (snd (startCodeGeneration request context c)) =
      Some {| controller :=
                {| enqueued :=
                     [TextEncoder_encode (JSON_stringify c started +:+ newline)];
                   terminated := false |};
              writerClosed := false |} /\
    launched (snd (startCodeGeneration request context c)) = Some init /\
    status = 200%Z /\
    headers = streamHeaders.
Proof.
  unfold startCodeGeneration, startCodeGeneration_try, tryCatch, bind, await,
    respond, perform, record, promiseAll, ret, initialState.
  destruct (request_json c) as [body | e]; simpl; [| discriminate].
  destruct (query body) as [[| a q] |]; simpl; try discriminate.
  destruct (enforceAppCreationRateLimit c) as [[] | [cls msg | v]]; simpl;
    try discriminate.
  destruct (getUserModelConfigs c (id (user context))) as [configs | e]; simpl;
    [| discriminate].
  destruct (getAgentStub c (generateId c)) as [stub | e]; simpl; [| discriminate].
  match goal with
  | |- context [getTemplateForQuery c ?ic ?q] =>
      destruct (getTemplateForQuery c ic q) as [template | e]
  end; simpl; [| discriminate].
  intros [= <- <-].
  eexists [_; _; _; _; _; _; _; _], _, _, _, _. simpl.
  repeat split; repeat constructor.
Qed.

(** The blueprint fragments are written one after the other, each as its
    own progress event. *)
Lemma blueprint_chunks_written chunks st :
  effects (foldl (fun st chunk => onBlueprintChunk c chunk st) st chunks) =
    effects st ++ map (fun chunk => WriterWrite (chunkEvent chunk)) chunks /\
  launched (foldl (fun st chunk => onBlueprintChunk c chunk st) st chunks) =
    launched st /\
  forall queue,
    stream st =
      Some {| controller := {| enqueued := queue; terminated := false |};
              writerClosed := false |} ->
    stream (foldl (fun st chunk => onBlueprintChunk c chunk st) st chunks) =
      Some {| controller :=
                {| enqueued :=
                     queue ++
                     map (fun chunk =>
                            TextEncoder_encode
                              (JSON_stringify c (chunkEvent chunk) +:+ newline))
                       chunks;
                   terminated := false |};
              writerClosed := false |}.
Proof.
  revert st. induction chunks as [| chunk chunks IH]; intros st; cbn [foldl map].
  - repeat split; [by rewrite app_nil_r | intros queue ->; by rewrite app_nil_r].
  - destruct (IH (onBlueprintChunk c chunk st)) as (He & Hl & Hs).
    split; [| split].
    + rewrite He. cbn. by rewrite <- app_assoc.
    + by rewrite Hl.
    + intros queue Hq.
      rewrite (Hs (queue ++ [TextEncoder_encode
        (JSON_stringify c (chunkEvent chunk) +:+ newline)])).
      * by rewrite <- app_assoc.
      * cbn. by rewrite Hq.
Qed.

Lemma writes_of_quiet pre :
  Forall awayFromWriter pre ->
  omap (fun e => match e with WriterWrite chunk => Some chunk | _ => None end) pre = []
  /\ WriterClose ∉ pre.
Proof.
  induction 1 as [| e pre He _ [IHw IHc]]; [split; [done | apply not_elem_of_nil] |].
  split.
  - destruct e; simpl in *; try done.
  - intros [<- | Hin]%elem_of_cons; [done | by apply IHc].
Qed.

Lemma writes_of_chunks chunks :
  omap (fun e => match e with WriterWrite chunk => Some chunk | _ => None end)
    (map (fun chunk => WriterWrite (chunkEvent chunk)) chunks)
  = map chunkEvent chunks.
Proof. induction chunks as [| x l IH]; [done |]. simpl. f_equal. exact IH. Qed.

Lemma close_not_among_chunks chunks :
  WriterClose ∉ map (fun chunk => WriterWrite (chunkEvent chunk)) chunks.
Proof.
  induction chunks as [| x l IH]; [apply not_elem_of_nil |].
  simpl. intros [? | ?]%elem_of_cons; [discriminate | done].
Qed.

Lemma sentinel_not_among_chunks chunks :
  JsString "terminate" ∉ map chunkEvent chunks.
Proof.
  induction chunks as [| x l IH]; [apply not_elem_of_nil |].
  simpl. intros [? | ?]%elem_of_cons; [discriminate | done].
Qed.

(** When the initialization launched by a successful bootstrap is
    fulfilled, the sentinel is written exactly once, as the last write,
    the writer is closed right after it, and the readable side holds the
    serialized progress events and is terminated. *)
Lemma fulfilled_initialization_terminates_once status headers init :
  fst (startCodeGeneration request context c) = StreamResponse status headers ->
  launched (snd (startCodeGeneration request context c)) = Some init ->
  settled init = Normal tt ->
  exists pre events,
    effects (snd (bootstrap request context c)) =
      pre ++ [WriterWrite (JsString "terminate"); WriterClose] /\
    (WriterClose ∉ pre) /\
    writes (snd (bootstrap request context c)) = events ++ [JsString "terminate"] /\
    (JsString "terminate" ∉ events) /\
    stream (snd (bootstrap request context c)) =
      Some {| controller :=
                {| enqueued :=
                     map (fun event =>
                            TextEncoder_encode (JSON_stringify c event +:+ newline))
                       events;
                   terminated := true |};
              writerClosed := true |}.
Proof.
  intros Hresp Hlaunched Hsettled.
  destruct (startCodeGeneration_stream_state _ _ Hresp)
    as (pre & started & args & mode & init' & He & Hpre & Hobj & Hs & Hl & _).
  unfold bootstrap.
  destruct (startCodeGeneration request context c) as [response st] eqn:Hrun.
  simpl in *. clear Hl init'.
  unfold settle. rewrite Hlaunched, Hsettled.
  destruct (blueprint_chunks_written (blueprintChunks init) st) as (He' & Hl' & Hs').
  specialize (Hs' _ Hs).
  set (st1 := foldl _ st _) in *.
  destruct (writes_of_quiet pre Hpre) as [Hw Hc].
  exists (pre ++ [WriterWrite started; AgentInitialize args mode]
          ++ map (fun chunk => WriterWrite (chunkEvent chunk)) (blueprintChunks init)),
    (started :: map chunkEvent (blueprintChunks init)).
  assert (Heff : effects (writer_close (writer_write c (JsString "terminate") st1)) =
    (pre ++ [WriterWrite started; AgentInitialize args mode]
          ++ map (fun chunk => WriterWrite (chunkEvent chunk)) (blueprintChunks init))
    ++ [WriterWrite (JsString "terminate"); WriterClose]).
  { cbn. rewrite He', He. by rewrite <- !app_assoc. }
  split; [exact Heff |]. split; [| split; [| split]].
  - intros [Hin | Hin]%elem_of_app; [done |].
    apply elem_of_cons in Hin as [? | Hin]; [discriminate |].
    apply elem_of_cons in Hin as [? | Hin]; [discriminate |].
    by apply close_not_among_chunks in Hin.
  - unfold writes. rewrite Heff, !omap_app, Hw, writes_of_chunks. reflexivity.
  - intros [<- | Hin]%elem_of_cons; [done |].
    by apply sentinel_not_among_chunks in Hin.
  - cbn. rewrite Hs'. cbn. rewrite map_map. reflexivity.
Qed.

(** When the initialization launched by a successful bootstrap is
    rejected, no reaction runs: the sentinel is never written, the writer
    is never closed, and the readable side stays open. *)
Lemma rejected_initialization_never_terminates status headers init error :
  fst (startCodeGeneration request context c) = StreamResponse status headers ->
  launched (snd (startCodeGeneration request context c)) = Some init ->
  settled init = Abrupt error ->
  (JsString "terminate" ∉ writes (snd (bootstrap request context c))) /\
  (WriterClose ∉ effects (snd (bootstrap request context c))) /\
  exists queue,
    stream (snd (bootstrap request context c)) =
      Some {| controller := {| enqueued := queue; terminated := false |};
              writerClosed := false |}.
Proof.
  intros Hresp Hlaunched Hsettled.
  destruct (startCodeGeneration_stream_state _ _ Hresp)
    as (pre & started & args & mode & init' & He & Hpre & Hobj & Hs & Hl & _).
  unfold bootstrap.
  destruct (startCodeGeneration request context c) as [response st] eqn:Hrun.
  simpl in *. clear Hl init'.
  unfold settle. rewrite Hlaunched, Hsettled.
  destruct (blueprint_chunks_written (blueprintChunks init) st) as (He' & Hl' & Hs').
  specialize (Hs' _ Hs).
  set (st1 := foldl _ st _) in *.
  destruct (writes_of_quiet pre Hpre) as [Hw Hc].
  assert (Heff : effects st1 =
    pre ++ [WriterWrite started; AgentInitialize args mode]
          ++ map (fun chunk => WriterWrite (chunkEvent chunk)) (blueprintChunks init)).
  { rewrite He', He. by rewrite <- !app_assoc. }
  split; [| split].
  - unfold writes. rewrite Heff, !omap_app, Hw, writes_of_chunks. cbn.
    intros [<- | Hin]%elem_of_cons; [done |].
    by apply sentinel_not_among_chunks in Hin.
  - rewrite Heff. intros [Hin | Hin]%elem_of_app; [done |].
    apply elem_of_cons in Hin as [? | Hin]; [discriminate |].
    apply elem_of_cons in Hin as [? | Hin]; [discriminate |].
    by apply close_not_among_chunks in Hin.
  - eexists. exact Hs'.
Qed.

(** C1 (as amended). For every bootstrap request that quota enforcement
    rejects, the answer is a 429 error response carrying the message of
    the quota engine (the message of the [Error] thrown, or the JSON text
    of any other thrown value); the calls made are exactly: reading the
    body, constructing the duplex stream, taking its writer, and asking
    the quota engine. So the id generator is never called, no agent-actor
    handle is requested, nothing is ever written to the stream, no
    initialization is launched, and the stream, constructed before the
    quota check, stays empty and is not part of the response. *)
Theorem quota_rejection_answers_429 body q error :
  request_json c = Normal body ->
  query body = Some q ->
  q <> EmptyString ->
  enforceAppCreationRateLimit c = Abrupt error ->
  fst (bootstrap request context c) =
    ErrorResponse
      (match error with
       | ThrownError _ message => message
       | ThrownValue v => JSON_stringify c v
       end) 429 /\
  effects (snd (bootstrap request context c)) =
    [RequestJson; NewTransformStream; GetWriter;
     EnforceAppCreationRateLimit (user context)] /\
  (GenerateId ∉ effects (snd (bootstrap request context c))) /\
  (forall agentId, GetAgentStub agentId ∉ effects (snd (bootstrap request context c))) /\
  writes (snd (bootstrap request context c)) = [] /\
  launched (snd (bootstrap request context c)) = None /\
  stream (snd (bootstrap request context c)) =
    Some {| controller := newController; writerClosed := false |}.
Proof.
  intros Hbody Hquery Hq Hquota.
  assert (Hrun : bootstrap request context c =
    (ErrorResponse
       (match error with
        | ThrownError _ message => message
        | ThrownValue v => JSON_stringify c v
        end) 429,
     {| effects := [RequestJson; NewTransformStream; GetWriter;
                    EnforceAppCreationRateLimit (user context)];
        stream := Some {| controller := newController; writerClosed := false |};
        launched := None |})).
  { unfold bootstrap, startCodeGeneration, startCodeGeneration_try, tryCatch, bind,
      await, respond, perform, initialState.
    rewrite Hbody. simpl. rewrite Hquery.
    destruct q as [| a q]; [done |]. simpl. rewrite Hquota.
    by destruct error. }
  rewrite Hrun. cbn [fst snd effects stream launched].
  repeat split.
  - intros Hin. repeat (apply elem_of_cons in Hin as [? | Hin]; [discriminate |]).
    by apply elem_of_nil in Hin.
  - intros agentId Hin.
    repeat (apply elem_of_cons in Hin as [? | Hin]; [discriminate |]).
    by apply elem_of_nil in Hin.
Qed.

End Handler.

(** The theorem applied to a request that the quota engine rejects. *)
Lemma quota_rejection_answers_429_witness :
  enforceAppCreationRateLimit Samples.overQuota = Abrupt Samples.quotaError /\
  fst (bootstrap Samples.sampleRequest Samples.sampleContext Samples.overQuota) =
    ErrorResponse "App creation limit reached" 429 /\
  writes (snd (bootstrap Samples.sampleRequest Samples.sampleContext
                 Samples.overQuota)) = [].
Proof.
  pose proof (quota_rejection_answers_429 Samples.sampleRequest
                Samples.sampleContext Samples.overQuota Samples.sampleBody
                "build a todo list" Samples.quotaError
                eq_refl eq_refl ltac:(discriminate) eq_refl)
    as (Hresponse & _ & _ & _ & Hwrites & _).
  split; [reflexivity |]. split; [exact Hresponse | exact Hwrites].
Defined.

(** C1, as the spec words it, fails: on a request that the quota engine
    rejects, the duplex stream has been constructed and its writer taken
    by the time the quota engine is asked. *)
Lemma quota_rejection_after_stream_construction :
  enforceAppCreationRateLimit Samples.overQuota = Abrupt Samples.quotaError /\
  fst (bootstrap Samples.sampleRequest Samples.sampleContext Samples.overQuota) =
    ErrorResponse "App creation limit reached" 429 /\
  effects (snd (bootstrap Samples.sampleRequest Samples.sampleContext
                  Samples.overQuota)) =
    [RequestJson; NewTransformStream; GetWriter;
     EnforceAppCreationRateLimit {| id := "user-1" |}] /\
  stream (snd (bootstrap Samples.sampleRequest Samples.sampleContext
                 Samples.overQuota)) <> None.
Proof. repeat split. discriminate. Qed.

(** C2, at an input on which it fails. The bootstrap succeeds (status 200,
    the stream is the body), the agent reports one blueprint fragment and
    then its initialization is rejected: the two progress events are the
    only writes, the sentinel is never written, the writer is never
    closed, and the readable side is left open. *)
Theorem rejected_initialization_leaves_stream_open :
  settled <$> launched (snd (startCodeGeneration Samples.sampleRequest
                               Samples.sampleContext Samples.initializationRejects))
  = Some (Abrupt (ThrownError GenericError "sandbox unavailable")) /\
  fst (bootstrap Samples.sampleRequest Samples.sampleContext
         Samples.initializationRejects) = StreamResponse 200 streamHeaders /\
  writes (snd (bootstrap Samples.sampleRequest Samples.sampleContext
                 Samples.initializationRejects)) =
    [startedEvent "agent-1" "wss://build.example.com/api/agent/agent-1/ws"
       "https://build.example.com/api/agent/agent-1"
       (templateDetails Samples.sampleTemplate);
     chunkEvent "# Plan"] /\
  (JsString "terminate"
     ∉ writes (snd (bootstrap Samples.sampleRequest Samples.sampleContext
                      Samples.initializationRejects))) /\
  (WriterClose
     ∉ effects (snd (bootstrap Samples.sampleRequest Samples.sampleContext
                       Samples.initializationRejects))) /\
  exists queue,
    stream (snd (bootstrap Samples.sampleRequest Samples.sampleContext
                   Samples.initializationRejects)) =
      Some {| controller := {| enqueued := queue; terminated := false |};
              writerClosed := false |}.
Proof.
  split; [reflexivity |]. split; [reflexivity |]. split; [reflexivity |].
  eapply rejected_initialization_never_terminates; reflexivity.
Qed.

End BootstrapProperties.

(** ** Conversational turn processor *)

Module ConversationProperties.

Import Conversation.

Lemma append_assoc (s1 s2 s3 : string) : (s1 +:+ s2) +:+ s3 = s1 +:+ (s2 +:+ s3).
Proof.
  induction s1 as [| a s1 IH]; [done |].
  change (String a ((s1 +:+ s2) +:+ s3) = String a (s1 +:+ s2 +:+ s3)).
  by rewrite IH.
Qed.

Lemma append_empty_r (s : string) : s +:+ EmptyString = s.
Proof.
  induction s as [| a s IH]; [done |].
  change (String a (s +:+ EmptyString) = String a s). by rewrite IH.
Qed.

Section Turn.

Variable c : Collaborators.

(** What the closures of a turn do during a run of the engine, whatever
    the engine calls and in whatever order: the accumulator grows by the
    streamed text, the enhanced-request slot holds the last queued
    request, and of the world only the log of callback invocations
    changes. *)
Lemma engine_steps aiConversationId steps locals w :
  exists calls,
    foldl (fun frame step =>
             runEngineStep (turnTools c aiConversationId) (onChunk aiConversationId) step frame)
      (locals, w) steps =
    ({| extractedUserResponse := extractedUserResponse locals +:+ streamedText steps;
        extractedEnhancedRequest :=
          default (extractedEnhancedRequest locals) (last (queuedRequests steps)) |},
     {| heap := heap w; idCalls := idCalls w;
        inferenceRequests := inferenceRequests w;
        callbackCalls := callbackCalls w ++ calls |}).
Proof.
  revert locals w. induction steps as [| step steps IH]; intros locals w.
  - exists []. cbn. rewrite append_empty_r, app_nil_r. by destruct locals, w.
  - cbn [foldl].
    destruct step as [chunk | [a | a | a r] | [a | a | a r] | [a | a | a r]]; cbn.
    all: lazymatch goal with
         | |- ex (fun _ => foldl _ (?l, ?w') _ = _) =>
             destruct (IH l w') as [calls ->]
         end; cbn.
    all: eexists; rewrite <- ?app_assoc, ?append_assoc; try reflexivity.
    rewrite last_cons. unfold queuedRequests.
    destruct (last _); reflexivity.
Qed.

(** Fresh ids, drawn at different calls, differ. *)
Lemma idAt_inj m n : idsAvailable c -> idsFresh c -> idAt c m = idAt c n -> m = n.
Proof.
  intros Ha Hf. unfold idAt.
  destruct (Ha m) as [a Hm], (Ha n) as [b Hn]. rewrite Hm, Hn.
  intros ->. eauto.
Qed.

(** Drawing an id from a generator that answers. *)
Lemma generateConversationId_available w :
  idsAvailable c ->
  generateConversationId c w =
  (Normal (idAt c (idCalls w)),
   {| heap := heap w; idCalls := S (idCalls w);
      inferenceRequests := inferenceRequests w; callbackCalls := callbackCalls w |}).
Proof.
  intros Ha. unfold generateConversationId, idAt.
  destruct (Ha (idCalls w)) as [a ->]. reflexivity.
Qed.

(** Tagging a list of messages draws one id per message, in order. *)
Lemma tag_all l w :
  idsAvailable c ->
  mapM (fun message => bind (generateConversationId c)
                         (fun id => ret (withConversationId message id))) l w =
  (Normal (zip_with withConversationId l (idAt c <$> seq (idCalls w) (length l))),
   {| heap := heap w; idCalls := idCalls w + length l;
      inferenceRequests := inferenceRequests w; callbackCalls := callbackCalls w |}).
Proof.
  intros Ha. revert w. induction l as [| m l IH]; intros w.
  - cbn. rewrite Nat.add_0_r. by destruct w.
  - cbn [mapM]. unfold bind at 1. unfold bind at 1.
    rewrite generateConversationId_available by done.
    unfold ret at 1. unfold bind at 1. rewrite IH. cbn.
    rewrite Nat.add_succ_r. reflexivity.
Qed.

(** Symbolic execution of [execute_try] up to the end of the engine's run. *)
Ltac run_until_inference w Hpast Hprompt Ha :=
  unfold execute_try;
  unfold bind at 1, liftCompletion; rewrite Hprompt;
  unfold bind at 1, spread at 1; rewrite Hpast;
  unfold bind at 1; rewrite generateConversationId_available by exact Ha;
  unfold bind at 1, newArray; cbn [heap idCalls inferenceRequests callbackCalls];
  unfold bind at 1; rewrite generateConversationId_available by exact Ha;
  cbn [heap idCalls inferenceRequests callbackCalls];
  unfold bind at 1, spread; cbn [heap]; rewrite lookup_insert_eq;
  unfold bind at 1, executeInference;
  cbn [heap idCalls inferenceRequests callbackCalls];
  match goal with
  | |- context [foldl _ (?locals, ?w') (steps ?run)] =>
      let calls := fresh "calls" in
      destruct (engine_steps (idAt c (S (idCalls w))) (steps run) locals w') as [calls ->]
  end;
  cbn [heap idCalls inferenceRequests callbackCalls
       extractedUserResponse extractedEnhancedRequest].

(** The [try] block when the engine resolves. *)
Lemma execute_try_resolved inputs w past prompts result :
  heap w !! pastMessages inputs = Some past ->
  getSystemPromptWithProjectContext c = Normal prompts ->
  idsAvailable c ->
  outcome (inference c (length (inferenceRequests w))) = Normal result ->
  exists calls request,
    request_messages request = prompts ++ withUserMessage c inputs w past /\
    execute_try c inputs w =
    (Normal {| conversationResponse :=
                 {| enhancedUserRequest :=
                      default EmptyString
                        (last (queuedRequests
                                 (steps (inference c (length (inferenceRequests w))))));
                    userResponse :=
                      streamedText (steps (inference c (length (inferenceRequests w)))) |};
               messages := fresh (dom (heap w)) |},
     {| heap :=
          <[fresh (dom (heap w)) :=
              withUserMessage c inputs w past
              ++ zip_with withConversationId (keptNewMessages result)
                   (idAt c <$> seq (idCalls w + 2) (length (keptNewMessages result)))
              ++ [withConversationId (createAssistantMessage (result_string result))
                    (idAt c (idCalls w + 2 + length (keptNewMessages result)))]]> (heap w);
        idCalls := idCalls w + 3 + length (keptNewMessages result);
        inferenceRequests := inferenceRequests w ++ [request];
        callbackCalls := callbackCalls w ++ calls |}).
Proof.
  intros Hpast Hprompt Ha Hout.
  run_until_inference w Hpast Hprompt Ha. rewrite Hout.
  unfold bind at 1. rewrite tag_all by done.
  cbn [heap idCalls inferenceRequests callbackCalls].
  unfold bind at 1, push at 1. cbn [heap idCalls inferenceRequests callbackCalls].
  rewrite lookup_insert_eq, insert_insert_eq.
  unfold bind at 1. rewrite generateConversationId_available by done.
  cbn [heap idCalls inferenceRequests callbackCalls].
  unfold bind at 1, push at 1. cbn [heap idCalls inferenceRequests callbackCalls].
  rewrite lookup_insert_eq, insert_insert_eq.
  eexists calls, _. apply and_comm. split.
  { unfold ret, withUserMessage. f_equal. f_equal.
    + replace (idCalls w + 2) with (S (S (idCalls w))) by lia.
      f_equal. by rewrite <- !app_assoc.
    + lia. }
  reflexivity.
Qed.

(** The [try] block when the engine rejects: the error leaves the block,
    with the array of the turn abandoned in the store. *)
Lemma execute_try_rejected inputs w past prompts error :
  heap w !! pastMessages inputs = Some past ->
  getSystemPromptWithProjectContext c = Normal prompts ->
  idsAvailable c ->
  outcome (inference c (length (inferenceRequests w))) = Abrupt error ->
  exists calls request,
    request_messages request = prompts ++ withUserMessage c inputs w past /\
    execute_try c inputs w =
    (Abrupt error,
     {| heap := <[fresh (dom (heap w)) := withUserMessage c inputs w past]> (heap w);
        idCalls := idCalls w + 2;
        inferenceRequests := inferenceRequests w ++ [request];
        callbackCalls := callbackCalls w ++ calls |}).
Proof.
  intros Hpast Hprompt Ha Hout.
  run_until_inference w Hpast Hprompt Ha. rewrite Hout.
  eexists calls, _. apply and_comm. split.
  { unfold withUserMessage. f_equal. f_equal. lia. }
  reflexivity.
Qed.

Lemma fresh_location_unused (w : World) : heap w !! fresh (dom (heap w)) = None.
Proof. apply not_elem_of_dom, is_fresh. Qed.

(** The [catch] block on an error that is recovered. *)
Lemma execute_catch_fallback inputs w past error :
  heap w !! pastMessages inputs = Some past ->
  idsAvailable c ->
  instanceofRateLimitExceededError error = false ->
  instanceofSecurityError error = false ->
  execute_catch c inputs error w =
  (Normal {| conversationResponse :=
               {| enhancedUserRequest := "User request: " +:+ userMessage inputs;
                  userResponse := FALLBACK_USER_RESPONSE |};
             messages := fresh (dom (heap w)) |},
   {| heap :=
        <[fresh (dom (heap w)) :=
            past ++
            [withConversationId (createUserMessage (userMessage inputs)) (idAt c (idCalls w));
             withConversationId (createAssistantMessage FALLBACK_USER_RESPONSE)
               (idAt c (S (idCalls w)))]]> (heap w);
      idCalls := S (S (idCalls w));
      inferenceRequests := inferenceRequests w;
      callbackCalls := callbackCalls w |}).
Proof.
  intros Hpast Ha Hrate Hsec. unfold execute_catch. rewrite Hrate, Hsec. cbn [orb].
  unfold bind at 1, spread. rewrite Hpast.
  unfold bind at 1. rewrite generateConversationId_available by done.
  unfold bind at 1. rewrite generateConversationId_available by done.
  reflexivity.
Qed.

(** *** What a turn does to the arrays of the store *)

(** Inversion of the primitive computations. *)
Lemma bind_inv {A B : Type} (m : M A) (k : A -> M B) w r w' :
  bind m k w = (r, w') ->
  (exists a w1, m w = (Normal a, w1) /\ k a w1 = (r, w')) \/
  (exists error, m w = (Abrupt error, w') /\ r = Abrupt error).
Proof.
  unfold bind. destruct (m w) as [[a | error] w1].
  - intros Hk. left. eauto.
  - intros [= <- <-]. right. eauto.
Qed.

Lemma liftCompletion_inv {A : Type} (outcome : Completion A) w r w' :
  liftCompletion outcome w = (r, w') -> w' = w.
Proof. by intros [= _ <-]. Qed.

Lemma generateConversationId_heap w r w' :
  generateConversationId c w = (r, w') -> heap w' = heap w.
Proof. by intros [= _ <-]. Qed.

Lemma spread_inv l w r w' :
  spread l w = (r, w') ->
  w' = w /\ forall items, r = Normal items -> heap w !! l = Some items.
Proof.
  unfold spread. destruct (heap w !! l) as [items |]; intros [= <- <-];
    split; congruence.
Qed.

Lemma newArray_inv items w r w' :
  newArray items w = (r, w') ->
  r = Normal (fresh (dom (heap w))) /\
  heap w' = <[fresh (dom (heap w)) := items]> (heap w).
Proof. by intros [= <- <-]. Qed.

Lemma push_inv l items w r w' :
  push l items w = (r, w') ->
  (exists old, r = Normal tt /\ heap w !! l = Some old /\
               heap w' = <[l := old ++ items]> (heap w)) \/
  (exists error, r = Abrupt error /\ w' = w).
Proof.
  unfold push. destruct (heap w !! l) as [old |]; intros [= <- <-]; eauto.
Qed.

Lemma executeInference_heap messages actionName ai size locals w r w' :
  executeInference c messages actionName (turnTools c ai) (onChunk ai) size locals w
  = (r, w') ->
  heap w' = heap w.
Proof.
  unfold executeInference.
  match goal with
  | |- context [foldl _ (?l0, ?w0) (steps ?run)] =>
      destruct (engine_steps ai (steps run) l0 w0) as [calls ->]
  end.
  destruct (outcome _); by intros [= _ <-].
Qed.

Lemma tag_all_heap l w r w' :
  mapM (fun message => bind (generateConversationId c)
                         (fun id => ret (withConversationId message id))) l w = (r, w') ->
  heap w' = heap w.
Proof.
  revert w r w'. induction l as [| m l IH]; intros w r w'; cbn [mapM].
  - by intros [= _ <-].
  - intros [(y & w1 & Hy & Hrest) | (e & He & _)]%bind_inv.
    + apply bind_inv in Hy as [(id & w2 & Hid & [= _ <-]) | (e & He & [=])].
      apply generateConversationId_heap in Hid.
      apply bind_inv in Hrest as [(ys & w3 & Hys & [= _ <-]) | (e & He & _)].
      * apply IH in Hys. congruence.
      * apply IH in He. congruence.
    + apply bind_inv in He as [(id & w2 & Hid & [=]) | (e' & He' & _)].
      by apply generateConversationId_heap in He'.
Qed.

Lemma arraysKept_same_heap w w' : heap w' = heap w -> arraysKept w w'.
Proof. intros Hh l items. by rewrite Hh. Qed.

Lemma arraysKept_trans w1 w2 w3 :
  arraysKept w1 w2 -> arraysKept w2 w3 -> arraysKept w1 w3.
Proof. unfold arraysKept. eauto. Qed.

(** Whatever happens in the [try] block, the arrays that existed before
    are kept, and a result, if any, is a new array that starts with the
    elements of [pastMessages]. *)
Lemma execute_try_frame inputs w r w' :
  execute_try c inputs w = (r, w') ->
  arraysKept w w' /\
  forall out, r = Normal out ->
    heap w !! messages out = None /\
    exists past suffix,
      heap w !! pastMessages inputs = Some past /\
      heap w' !! messages out = Some (past ++ suffix).
Proof.
  unfold execute_try. intros Hrun.
  (* the system prompt *)
  apply bind_inv in Hrun as [(prompts & w1 & Hstep & Hrun) | (e & Hstep & ->)];
    apply liftCompletion_inv in Hstep as ->;
    [| split; [by apply arraysKept_same_heap | done]].
  (* [...pastMessages] *)
  apply bind_inv in Hrun as [(past & w1 & Hstep & Hrun) | (e & Hstep & ->)];
    apply spread_inv in Hstep as [-> Hpast];
    [| split; [by apply arraysKept_same_heap | done]].
  specialize (Hpast _ eq_refl).
  (* the id of the user message *)
  apply bind_inv in Hrun as [(userId & w1 & Hstep & Hrun) | (e & Hstep & ->)];
    apply generateConversationId_heap in Hstep as H1; clear Hstep;
    [| split; [by apply arraysKept_same_heap | done]].
  (* the new array *)
  apply bind_inv in Hrun as [(l & w2 & Hstep & Hrun) | (e & Hstep & ->)];
    apply newArray_inv in Hstep as [[=] H2]. subst l.
  set (l := fresh (dom (heap w1))) in *.
  assert (Hfresh : heap w !! l = None).
  { rewrite <- H1. apply not_elem_of_dom, is_fresh. }
  assert (Hkept : forall w3 items,
             heap w3 = <[l := items]> (heap w) -> arraysKept w w3).
  { intros w3 items Hh k old Hk. rewrite Hh. rewrite lookup_insert_ne; [done |].
    intros <-. congruence. }
  rewrite H1 in H2.
  (* the id of the turn *)
  apply bind_inv in Hrun as [(ai & w3 & Hstep & Hrun) | (e & Hstep & ->)];
    apply generateConversationId_heap in Hstep as H3; clear Hstep; rewrite H2 in H3;
    [| split; [by eapply Hkept | done]].
  (* [...messages] *)
  apply bind_inv in Hrun as [(current & w4 & Hstep & Hrun) | (e & Hstep & ->)];
    apply spread_inv in Hstep as [-> _];
    [| split; [by eapply Hkept | done]].
  (* the inference call *)
  apply bind_inv in Hrun as [([result locals] & w4 & Hstep & Hrun) | (e & Hstep & ->)];
    apply executeInference_heap in Hstep as H4; clear Hstep; rewrite H3 in H4;
    [| split; [by eapply Hkept | done]].
  (* the ids of the new messages *)
  apply bind_inv in Hrun as [(tagged & w5 & Hstep & Hrun) | (e & Hstep & ->)];
    apply tag_all_heap in Hstep as H5; clear Hstep; rewrite H4 in H5;
    [| split; [by eapply Hkept | done]].
  (* the first push *)
  apply bind_inv in Hrun as [([] & w6 & Hstep & Hrun) | (e & Hstep & ->)];
    apply push_inv in Hstep as [(old & [=] & Hold & H6) | (e' & [=] & ->)];
    try (split; [by eapply Hkept | done]); try discriminate.
  rewrite H5, lookup_insert_eq in Hold. injection Hold as <-.
  rewrite H5, insert_insert_eq in H6.
  (* the id of the final message *)
  apply bind_inv in Hrun as [(finalId & w7 & Hstep & Hrun) | (e & Hstep & ->)];
    apply generateConversationId_heap in Hstep as H7; clear Hstep; rewrite H6 in H7;
    [| split; [by eapply Hkept | done]].
  (* the second push *)
  apply bind_inv in Hrun as [([] & w8 & Hstep & Hrun) | (e & Hstep & ->)];
    apply push_inv in Hstep as [(old & [=] & Hold & H8) | (e' & [=] & ->)];
    try (split; [by eapply Hkept | done]); try discriminate.
  rewrite H7, lookup_insert_eq in Hold. injection Hold as <-.
  rewrite H7, insert_insert_eq in H8.
  injection Hrun as <- <-.
  split; [by eapply Hkept |].
  intros out [= <-]. cbn [messages]. split; [done |].
  eexists past, _. split; [done |].
  rewrite H8, lookup_insert_eq, <- !app_assoc. reflexivity.
Qed.

(** The same for the [catch] block. *)
Lemma execute_catch_frame inputs error w r w' :
  execute_catch c inputs error w = (r, w') ->
  arraysKept w w' /\
  forall out, r = Normal out ->
    heap w !! messages out = None /\
    exists past suffix,
      heap w !! pastMessages inputs = Some past /\
      heap w' !! messages out = Some (past ++ suffix).
Proof.
  unfold execute_catch.
  destruct (_ || _).
  { intros [= <- <-]. split; [by apply arraysKept_same_heap | done]. }
  intros Hrun.
  apply bind_inv in Hrun as [(past & w1 & Hstep & Hrun) | (e & Hstep & ->)];
    apply spread_inv in Hstep as [-> Hpast];
    [| split; [by apply arraysKept_same_heap | done]].
  specialize (Hpast _ eq_refl).
  apply bind_inv in Hrun as [(userId & w1 & Hstep & Hrun) | (e & Hstep & ->)];
    apply generateConversationId_heap in Hstep as H1; clear Hstep;
    [| split; [by apply arraysKept_same_heap | done]].
  apply bind_inv in Hrun as [(assistantId & w2 & Hstep & Hrun) | (e & Hstep & ->)];
    apply generateConversationId_heap in Hstep as H2; clear Hstep; rewrite H1 in H2;
    [| split; [by apply arraysKept_same_heap | done]].
  apply bind_inv in Hrun as [(l & w3 & Hstep & Hrun) | (e & Hstep & ->)];
    apply newArray_inv in Hstep as [[=] H3]. subst l.
  injection Hrun as <- <-.
  rewrite H2 in *.
  assert (Hfresh : heap w !! fresh (dom (heap w)) = None).
  { apply not_elem_of_dom, is_fresh. }
  split.
  - intros k old Hk. rewrite H3, lookup_insert_ne; [done |]. intros <-. congruence.
  - intros out [= <-]. cbn [messages]. split; [done |].
    eexists past, _. split; [done |]. rewrite H3, lookup_insert_eq. reflexivity.
Qed.

Lemma isInternalMemo_withConversationId message id :
  isInternalMemo (withConversationId message id) = isInternalMemo message.
Proof. reflexivity. Qed.






(** C5. In every turn whose inference call throws a quota violation or a
    security violation, [execute] throws that very error. *)
Theorem execute_rethrows inputs w past prompts error :
  heap w !! pastMessages inputs = Some past ->
  getSystemPromptWithProjectContext c = Normal prompts ->
  idsAvailable c ->
  outcome (inference c (length (inferenceRequests w))) = Abrupt error ->
  instanceofRateLimitExceededError error || instanceofSecurityError error = true ->
  fst (execute c inputs w) = Abrupt error.
Proof.
  intros Hpast Hprompt Ha Hout Hclass.
  destruct (execute_try_rejected inputs w past prompts error Hpast Hprompt Ha Hout)
    as (calls & request & _ & Htry).
  unfold execute, tryCatch. rewrite Htry.
  unfold execute_catch. rewrite Hclass. reflexivity.
Qed.

(** C6 (as amended). In every successful turn, the last message of the
    returned history is the assistant message built from the string the
    inference call resolved to; the response of the turn is the text
    accumulated from the streamed fragments, and the enhanced request is
    the last modification request queued through the edit tool, or empty
    when none was queued. *)
Theorem execute_success_response inputs w past prompts result :
  heap w !! pastMessages inputs = Some past ->
  getSystemPromptWithProjectContext c = Normal prompts ->
  idsAvailable c ->
  outcome (inference c (length (inferenceRequests w))) = Normal result ->
  exists out w' earlier finalId,
    execute c inputs w = (Normal out, w') /\
    heap w' !! messages out =
      Some (earlier
            ++ [withConversationId (createAssistantMessage (result_string result))
                  finalId]) /\
    userResponse (conversationResponse out) =
      streamedText (steps (inference c (length (inferenceRequests w)))) /\
    enhancedUserRequest (conversationResponse out) =
      default EmptyString
        (last (queuedRequests (steps (inference c (length (inferenceRequests w)))))).
Proof.
  intros Hpast Hprompt Ha Hout.
  destruct (execute_try_resolved inputs w past prompts result Hpast Hprompt Ha Hout)
    as (calls & request & _ & Htry).
  unfold execute, tryCatch. rewrite Htry.
  eexists _, _, _, _. split; [reflexivity |].
  cbn [messages heap conversationResponse userResponse enhancedUserRequest].
  rewrite lookup_insert_eq. split; [| done].
  by rewrite app_assoc.
Qed.

(** C7. The schema of the queue-an-edit tool has the single, required
    property [modificationRequest], a string of minimum length 8. Called
    with any arguments, the implementation hands the description to the
    state mutator it was built with and returns the fixed
    acknowledgement; with the mutator of [execute], the description ends
    up in the enhanced-request slot, and neither the accumulated text nor
    anything of the world changes. *)
Theorem queue_request_tool stateMutator args locals w :
  function_name (tool_function (buildEditAppTool stateMutator)) = "queue_request" /\
  properties (parameters (tool_function (buildEditAppTool stateMutator))) =
    [("modificationRequest",
      {| property_type := "string"; minLength := Some 8;
         property_description := editAppDescription |})] /\
  required (parameters (tool_function (buildEditAppTool stateMutator))) =
    ["modificationRequest"] /\
  implementation (buildEditAppTool stateMutator) args (locals, w) =
    (Normal {| result_content := editAppAcknowledgement |},
     stateMutator (modificationRequest args) (locals, w)) /\
  forall ai,
    implementation (queueRequest (turnTools c ai)) args (locals, w) =
      (Normal {| result_content := editAppAcknowledgement |},
       ({| extractedUserResponse := extractedUserResponse locals;
           extractedEnhancedRequest := modificationRequest args |}, w)).
Proof. repeat split. Qed.

(** The message of a project update is an internal memo, whatever the
    name of the update type. *)
Lemma preparedMessage_is_memo updateType id :
  isInternalMemo
    {| role := RoleAssistant; content := TextContent (preparedMessage c updateType);
       conversationId := Some id; other := [] |} = true.
Proof.
  unfold isInternalMemo, preparedMessage, includes. cbn [role content].
  set (rest := newline +:+ _).
  vm_compute. reflexivity.
Qed.

(** C9. With an id generator that answers with fresh ids, two calls of
    [processProjectUpdates] with the same update type, whatever the data,
    each return one assistant message; the two messages have the same
    content, the memo text of the update type, are internal memos, and
    have different ids. When the id generator throws, the call returns the
    empty sequence instead of throwing. *)
Theorem processProjectUpdates_twice updateType data1 data2 w :
  (idsAvailable c -> idsFresh c ->
   exists id1 id2 w1 w2,
     processProjectUpdates c updateType data1 w =
       (Normal [{| role := RoleAssistant;
                   content := TextContent (preparedMessage c updateType);
                   conversationId := Some id1; other := [] |}], w1) /\
     processProjectUpdates c updateType data2 w1 =
       (Normal [{| role := RoleAssistant;
                   content := TextContent (preparedMessage c updateType);
                   conversationId := Some id2; other := [] |}], w2) /\
     id1 <> id2 /\
     isInternalMemo
       {| role := RoleAssistant;
          content := TextContent (preparedMessage c updateType);
          conversationId := Some id1; other := [] |} = true) /\
  (forall error,
     conversationIds c (idCalls w) = Abrupt error ->
     fst (processProjectUpdates c updateType data1 w) = Normal []).
Proof.
  split.
  - intros Ha Hf.
    exists (idAt c (idCalls w)), (idAt c (S (idCalls w))). eexists _, _.
    unfold processProjectUpdates, tryCatch.
    unfold bind at 1. rewrite generateConversationId_available by done.
    split; [reflexivity |]. cbn [idCalls].
    unfold bind at 1. rewrite generateConversationId_available by done.
    split; [reflexivity |]. split.
    + intros Heq. apply idAt_inj in Heq; [lia | done | done].
    + apply preparedMessage_is_memo.
  - intros error Hfail. unfold processProjectUpdates, tryCatch, bind, generateConversationId.
    rewrite Hfail. reflexivity.
Qed.

(** C10. Whatever the collaborators do, [execute] leaves the array
    [pastMessages] as it was, like every other array that existed before
    the call; and when it returns, on the success path as on the fallback
    path, the returned array is a new array object, different from
    [pastMessages], whose first elements are the elements of
    [pastMessages] in their order. *)
Theorem execute_leaves_history_untouched inputs w past :
  heap w !! pastMessages inputs = Some past ->
  heap (snd (execute c inputs w)) !! pastMessages inputs = Some past /\
  (forall l items,
     heap w !! l = Some items -> heap (snd (execute c inputs w)) !! l = Some items) /\
  (forall out,
     fst (execute c inputs w) = Normal out ->
     heap w !! messages out = None /\
     messages out <> pastMessages inputs /\
     exists suffix,
       heap (snd (execute c inputs w)) !! messages out = Some (past ++ suffix)).
Proof.
  intros Hpast.
  assert (Hall :
    arraysKept w (snd (execute c inputs w)) /\
    forall out, fst (execute c inputs w) = Normal out ->
      heap w !! messages out = None /\
      exists suffix,
        heap (snd (execute c inputs w)) !! messages out = Some (past ++ suffix)).
  { unfold execute, tryCatch.
    destruct (execute_try c inputs w) as [[out | error] w1] eqn:Htry.
    - apply execute_try_frame in Htry as [Hkept Hout]. cbn [fst snd].
      split; [done |]. intros out' [= <-].
      destruct (Hout out eq_refl) as (Hnew & past' & suffix & Hpast' & Hres).
      split; [done |]. exists suffix. congruence.
    - apply execute_try_frame in Htry as [Hkept _].
      destruct (execute_catch c inputs error w1) as [r w'] eqn:Hcatch.
      apply execute_catch_frame in Hcatch as [Hkept' Hout]. cbn [fst snd].
      split; [by eapply arraysKept_trans |]. intros out ->.
      destruct (Hout out eq_refl) as (Hnew & past' & suffix & Hpast' & Hres).
      split.
      + destruct (heap w !! messages out) as [items |] eqn:Hold; [| done].
        apply Hkept in Hold. congruence.
      + exists suffix. apply Hkept in Hpast. congruence. }
  destruct Hall as [Hkept Hout].
  split; [by apply Hkept |]. split; [exact Hkept |].
  intros out Hres. destruct (Hout out Hres) as [Hnew Hsuffix].
  split; [done |]. split; [congruence | done].
Qed.

End Turn.

(** *** The theorems at work on the sample turns *)

Import TurnSamples.

Lemma sequentialIds_available run : idsAvailable (processorWith sequentialIds run).
Proof. intros n. eexists. reflexivity. Defined.

Lemma sequentialIds_fresh run : idsFresh (processorWith sequentialIds run).
Proof.
  intros m n id Hm Hn. cbn in Hm, Hn. unfold sequentialIds in Hm, Hn.
  rewrite <- Hn in Hm. injection Hm as Hm.
  change (pretty m = pretty n) in Hm. by apply (inj pretty) in Hm.
Defined.

Lemma sampleWorld_history : heap sampleWorld !! pastMessages sampleTurn = Some earlier.
Proof. vm_compute. reflexivity. Defined.



(** A turn whose engine reports a quota violation. *)
Lemma execute_rethrows_witness :
  instanceofRateLimitExceededError overLimit = true /\
  fst (execute (processorWith sequentialIds (failingRun overLimit))
         sampleTurn sampleWorld) = Abrupt overLimit.
Proof.
  split; [reflexivity |].
  exact (execute_rethrows (processorWith sequentialIds (failingRun overLimit))
           sampleTurn sampleWorld earlier systemPrompt overLimit
           sampleWorld_history eq_refl (sequentialIds_available _)
           eq_refl eq_refl).
Defined.

(** C6, as the spec words it, fails. The engine streams a first text,
    calls the edit tool, streams a second text and resolves to the second
    text alone: the final assistant message holds ["Queued."], while the
    text accumulated from the fragments, which is the response of the
    turn, is ["Let me queue that. Queued."]. *)
Lemma final_message_is_not_the_streamed_text :
  fst (execute (processorWith sequentialIds queueRun) sampleTurn sampleWorld) =
    Normal {| conversationResponse :=
                {| enhancedUserRequest := "Add a dark mode toggle to the header";
                   userResponse := "Let me queue that. Queued." |};
              messages := 1 |} /\
  last <$> heap (snd (execute (processorWith sequentialIds queueRun)
                        sampleTurn sampleWorld)) !! 1 =
    Some (Some {| role := RoleAssistant; content := TextContent "Queued.";
                  conversationId := Some "conv-4"; other := [] |}) /\
  streamedText (steps queueRun) = "Let me queue that. Queued." /\
  "Queued." <> "Let me queue that. Queued.".
Proof. repeat split; try (vm_compute; reflexivity). discriminate. Qed.

(** The amended statement on the same turn. *)
Lemma execute_success_response_witness :
  exists out w' earlierMessages finalId,
    execute (processorWith sequentialIds queueRun) sampleTurn sampleWorld =
      (Normal out, w') /\
    heap w' !! messages out =
      Some (earlierMessages
            ++ [withConversationId (createAssistantMessage "Queued.") finalId]) /\
    userResponse (conversationResponse out) = "Let me queue that. Queued." /\
    enhancedUserRequest (conversationResponse out) =
      "Add a dark mode toggle to the header".
Proof.
  exact (execute_success_response (processorWith sequentialIds queueRun)
           sampleTurn sampleWorld earlier systemPrompt _
           sampleWorld_history eq_refl (sequentialIds_available _) eq_refl).
Defined.

(** Two summaries of the same update, and one with a generator that is
    out of order. *)
Lemma processProjectUpdates_twice_witness :
  (exists id1 id2 w1 w2,
     processProjectUpdates (processorWith sequentialIds darkModeRun)
       CODE_REVIEW JsNull sampleWorld =
       (Normal [{| role := RoleAssistant;
                   content :=
                     TextContent
                       (preparedMessage (processorWith sequentialIds darkModeRun)
                          CODE_REVIEW);
                   conversationId := Some id1; other := [] |}], w1) /\
     processProjectUpdates (processorWith sequentialIds darkModeRun)
       CODE_REVIEW (JsBool true) w1 =
       (Normal [{| role := RoleAssistant;
                   content :=
                     TextContent
                       (preparedMessage (processorWith sequentialIds darkModeRun)
                          CODE_REVIEW);
                   conversationId := Some id2; other := [] |}], w2) /\
     id1 <> id2 /\
     isInternalMemo
       {| role := RoleAssistant;
          content :=
            TextContent
              (preparedMessage (processorWith sequentialIds darkModeRun) CODE_REVIEW);
          conversationId := Some id1; other := [] |} = true) /\
  fst (processProjectUpdates (processorWith brokenIds darkModeRun)
         CODE_REVIEW JsNull sampleWorld) = Normal [].
Proof.
  split.
  - exact (proj1 (processProjectUpdates_twice
                    (processorWith sequentialIds darkModeRun)
                    CODE_REVIEW JsNull (JsBool true) sampleWorld)
             (sequentialIds_available _) (sequentialIds_fresh _)).
  - exact (proj2 (processProjectUpdates_twice
                    (processorWith brokenIds darkModeRun)
                    CODE_REVIEW JsNull JsNull sampleWorld)
             _ eq_refl).
Defined.

(** The history of the sample turn after a fallback. *)
Lemma execute_leaves_history_untouched_witness :
  heap sampleWorld !! pastMessages sampleTurn = Some earlier /\
  heap (snd (execute (processorWith sequentialIds (failingRun engineTimeout))
               sampleTurn sampleWorld)) !! pastMessages sampleTurn = Some earlier.
Proof.
  split; [exact sampleWorld_history |].
  exact (proj1 (execute_leaves_history_untouched
                  (processorWith sequentialIds (failingRun engineTimeout))
                  sampleTurn sampleWorld earlier sampleWorld_history)).
Defined.

End ConversationProperties.

(** * Further properties of the code *)

(** ** Session bootstrap: the other paths of the handler *)

Module BootstrapCoverage.

Import EventStream Bootstrap.

(** Unfolds the handler down to the answers of its collaborators. *)
Ltac unfold_handler :=
  unfold bootstrap, startCodeGeneration, startCodeGeneration_try, tryCatch, bind,
    await, respond, perform, record, promiseAll, ret, initialState.

Section Requests.
Variables (request : Request) (context : RouteContext) (c : Collaborators).

(** X1. When the body of the request cannot be read as JSON, the handler
    answers 400 with ["Invalid JSON in request body: "] followed by the
    indented JSON text of the error (lines 39-43), and it has called
    nothing but [request.json]: no stream is constructed, the quota engine
    is not asked, no id is generated, nothing is launched. *)
Theorem invalid_body_answers_400 error :
  request_json c = Abrupt error ->
  bootstrap request context c =
    (ErrorResponse
       ("Invalid JSON in request body: " +:+ JSON_stringify_indented c error) 400,
     {| effects := [RequestJson]; stream := None; launched := None |}).
Proof. intros Hbody. unfold_handler. rewrite Hbody. reflexivity. Qed.


(** The handler, case by case on what the collaborators answer. *)
Ltac handler_cases :=
  unfold_handler;
  destruct (request_json c) as [body | e] eqn:Hbody; simpl;
  [ destruct (query body) as [[| a q] |] eqn:Hquery; simpl;
    [ | destruct (enforceAppCreationRateLimit c) as [[] | [cls msg | v]] eqn:Hquota;
        simpl;
        [ destruct (getUserModelConfigs c (id (user context))) as [configs | e]
            eqn:Hconfigs; simpl;
          [ destruct (getAgentStub c (generateId c)) as [stub | e] eqn:Hstub; simpl;
            [ match goal with
              | |- context [getTemplateForQuery c ?ic ?q] =>
                  destruct (getTemplateForQuery c ic q) as [template | e] eqn:Htemplate
              end; simpl
            | ]
          | destruct (getAgentStub c (generateId c)) as [stub | e'] eqn:Hstub; simpl ]
        | | ]
    | ]
  | ].

(** X3. Whatever the collaborators answer, the handler returns in one of
    three ways. A stream response has status 200 and the event-stream
    headers, and then the initialization has been launched and exactly one
    chunk, a JSON object, has been written. An error response has status
    400 or 429, and a failure handed to [handleError] carries the action
    ["start code generation"]; in both cases nothing has been written to
    the stream and no initialization has been launched. *)
Theorem stream_written_only_on_success :
  match fst (startCodeGeneration request context c) with
  | StreamResponse status headers =>
      status = 200%Z /\ headers = streamHeaders /\
      is_Some (launched (snd (startCodeGeneration request context c))) /\
      exists started,
        writes (snd (startCodeGeneration request context c)) = [started] /\
        isObject started
  | ErrorResponse _ status =>
      (status = 400%Z \/ status = 429%Z) /\
      writes (snd (startCodeGeneration request context c)) = [] /\
      launched (snd (startCodeGeneration request context c)) = None
  | HandledError _ action =>
      action = "start code generation" /\
      writes (snd (startCodeGeneration request context c)) = [] /\
      launched (snd (startCodeGeneration request context c)) = None
  end.
Proof.
  handler_cases; cbn; auto 10.
  repeat split; eauto. eexists. split; [reflexivity | exact I].
Qed.

(** X4. The order of the checks. The quota engine is asked only about the
    user of the route context, and only once the body has been read and
    holds a query; an id is generated only once the quota engine has
    accepted; and the agent is initialized only by a handler that answers
    with the stream. *)
Theorem calls_are_gated :
  (forall u,
     EnforceAppCreationRateLimit u ∈ effects (snd (startCodeGeneration request context c)) ->
     u = user context /\
     exists body, request_json c = Normal body /\ falsy (query body) = false) /\
  (GenerateId ∈ effects (snd (startCodeGeneration request context c)) ->
     enforceAppCreationRateLimit c = Normal tt /\
     exists body, request_json c = Normal body /\ falsy (query body) = false) /\
  (forall args mode,
     AgentInitialize args mode ∈ effects (snd (startCodeGeneration request context c)) ->
     fst (startCodeGeneration request context c) = StreamResponse 200 streamHeaders).
Proof.
  handler_cases; cbn.
  all: split; [intros u Hin | split; [intros Hin | intros args mode Hin]].
  all: repeat (apply elem_of_cons in Hin as [Hin | Hin]; [try discriminate |]);
    try (by apply elem_of_nil in Hin).
  all: try (injection Hin as ->); try reflexivity.
  all: split; [reflexivity | eexists; split; [reflexivity | by rewrite Hquery]].
Qed.

(** X5. Once the quota engine has accepted, the failure of a later
    collaborator (the model configurations, the agent stub, or the
    selection of the template) is caught by the outer [catch] (lines
    151-154) and answered through [handleError] with the thrown value and
    the action ["start code generation"]. By then the id has been generated
    and the stream constructed, but nothing has been written to it and no
    initialization is launched. *)
Theorem collaborator_failure_is_handled body configs stub error :
  request_json c = Normal body ->
  falsy (query body) = false ->
  enforceAppCreationRateLimit c = Normal tt ->
  (getUserModelConfigs c (id (user context)) = Abrupt error /\
   getAgentStub c (generateId c) = Normal stub) \/
  (getUserModelConfigs c (id (user context)) = Normal configs /\
   getAgentStub c (generateId c) = Abrupt error) \/
  (getUserModelConfigs c (id (user context)) = Normal configs /\
   getAgentStub c (generateId c) = Normal stub /\
   getTemplateForQuery c
     {| userModelConfigs := collectUserOverrides configs;
        ic_agentId := generateId c;
        userId := id (user context);
        enableRealtimeCodeFix := true |}
     (default EmptyString (query body)) = Abrupt error) ->
  fst (bootstrap request context c) = HandledError error "start code generation" /\
  (GenerateId ∈ effects (snd (bootstrap request context c))) /\
  writes (snd (bootstrap request context c)) = [] /\
  launched (snd (bootstrap request context c)) = None /\
  stream (snd (bootstrap request context c)) =
    Some {| controller := newController; writerClosed := false |}.
Proof.
  intros Hbody Hquery Hquota Hfail. unfold_handler. rewrite Hbody. simpl.
  destruct (query body) as [[| a q] |]; try discriminate. simpl.
  rewrite Hquota. simpl.
  destruct Hfail as [[Hconfigs Hstub] | [[Hconfigs Hstub] | (Hconfigs & Hstub & Htemplate)]].
  - rewrite Hconfigs. simpl. repeat split. set_solver.
  - rewrite Hconfigs, Hstub. simpl. repeat split. set_solver.
  - rewrite Hconfigs, Hstub. simpl in *. rewrite Htemplate. simpl.
    repeat split. set_solver.
Qed.

(** X6. The field [selectedTemplate] of the body plays no part: replacing
    it by any other value changes neither the response nor any call the
    handler makes nor anything written to the stream. *)
Theorem selectedTemplate_is_ignored body chosen :
  request_json c = Normal body ->
  bootstrap request context
    {| JSON_stringify := JSON_stringify c;
       JSON_stringify_indented := JSON_stringify_indented c;
       getPreviewDomain := getPreviewDomain c;
       request_json :=
         Normal {| query := query body; language := language body;
                   frameworks := frameworks body; selectedTemplate := chosen;
                   agentMode := agentMode body |};
       enforceAppCreationRateLimit := enforceAppCreationRateLimit c;
       generateId := generateId c;
       getUserModelConfigs := getUserModelConfigs c;
       getAgentStub := getAgentStub c;
       getTemplateForQuery := getTemplateForQuery c |}
  = bootstrap request context c.
Proof.
  intros Hbody. unfold_handler. rewrite Hbody. reflexivity.
Qed.

Section Accepted.

Variables (body : CodeGenArgs) (q : string)
  (configs : list (string * MergedModelConfig)) (stub : AgentStub)
  (template : TemplateSelection).

Hypothesis Hbody : request_json c = Normal body.
Hypothesis Hquery : query body = Some q.
Hypothesis Hq : q <> EmptyString.
Hypothesis Hquota : enforceAppCreationRateLimit c = Normal tt.
Hypothesis Hconfigs : getUserModelConfigs c (id (user context)) = Normal configs.
Hypothesis Hstub : getAgentStub c (generateId c) = Normal stub.
Hypothesis Htemplate :
  getTemplateForQuery c
    {| userModelConfigs := collectUserOverrides configs;
       ic_agentId := generateId c;
       userId := id (user context);
       enableRealtimeCodeFix := true |} q = Normal template.

(** The handler on a request that every collaborator accepts. *)
Lemma startCodeGeneration_accepts :
  startCodeGeneration request context c =
  (StreamResponse 200 streamHeaders,
   {| effects :=
        [RequestJson; NewTransformStream; GetWriter;
         EnforceAppCreationRateLimit (user context); GenerateId;
         GetUserModelConfigs (id (user context)); GetAgentStub (generateId c);
         GetTemplateForQuery
           {| userModelConfigs := collectUserOverrides configs;
              ic_agentId := generateId c;
              userId := id (user context);
              enableRealtimeCodeFix := true |} q;
         WriterWrite
           (startedEvent (generateId c)
              ((if String.eqb (protocol (url request)) "https:" then "wss:" else "ws:")
               +:+ "//" +:+ host (url request) +:+ "/api/agent/"
               +:+ generateId c +:+ "/ws")
              (origin (url request) +:+ "/api/agent/" +:+ generateId c)
              (templateDetails template));
         AgentInitialize
           {| init_query := q;
              init_language := Some (orElse (language body) "typescript");
              init_frameworks :=
                Some (orElseArray (frameworks body) ["react"; "vite"]);
              init_hostname :=
                if String.eqb (hostname (url request)) "localhost"
                then "localhost:" +:+ port (url request)
                else getPreviewDomain c;
              init_inferenceContext :=
                {| userModelConfigs := collectUserOverrides configs;
                   ic_agentId := generateId c;
                   userId := id (user context);
                   enableRealtimeCodeFix := true |};
              init_templateInfo := (templateDetails template, selection template);
              init_sandboxSessionId := sandboxSessionId template |}
           (Some (orElse (agentMode body) "deterministic"))];
      stream :=
        Some {| controller :=
                  {| enqueued :=
                       [TextEncoder_encode
                          (JSON_stringify c
                             (startedEvent (generateId c)
                                ((if String.eqb (protocol (url request)) "https:"
                                  then "wss:" else "ws:")
                                 +:+ "//" +:+ host (url request) +:+ "/api/agent/"
                                 +:+ generateId c +:+ "/ws")
                                (origin (url request) +:+ "/api/agent/" +:+ generateId c)
                                (templateDetails template))
                           +:+ newline)];
                     terminated := false |};
                writerClosed := false |};
      launched :=
        Some (initialize stub
                {| init_query := q;
                   init_language := Some (orElse (language body) "typescript");
                   init_frameworks :=
                     Some (orElseArray (frameworks body) ["react"; "vite"]);
                   init_hostname :=
                     if String.eqb (hostname (url request)) "localhost"
                     then "localhost:" +:+ port (url request)
                     else getPreviewDomain c;
                   init_inferenceContext :=
                     {| userModelConfigs := collectUserOverrides configs;
                        ic_agentId := generateId c;
                        userId := id (user context);
                        enableRealtimeCodeFix := true |};
                   init_templateInfo := (templateDetails template, selection template);
                   init_sandboxSessionId := sandboxSessionId template |}
                (Some (orElse (agentMode body) "deterministic"))) |}).
Proof.
  unfold_handler. rewrite Hbody. simpl. rewrite Hquery.
  destruct q as [| a q']; [done |]. simpl. rewrite Hquota. simpl.
  rewrite Hconfigs, Hstub. simpl. rewrite Htemplate. simpl.
  assert (Hl : orField (language body) (Some "typescript")
               = Some (orElse (language body) "typescript")).
  { by destruct (language body) as [[| ? ?] |]. }
  assert (Hm : orField (agentMode body) (Some "deterministic")
               = Some (orElse (agentMode body) "deterministic")).
  { by destruct (agentMode body) as [[| ? ?] |]. }
  assert (Hf : orFieldArray (frameworks body) (Some ["react"; "vite"])
               = Some (orElseArray (frameworks body) ["react"; "vite"])).
  { by destruct (frameworks body). }
  rewrite Hl, Hm, Hf. reflexivity.
Qed.


(** X8. On a request that every collaborator accepts, the last call of the
    handler initializes the agent (lines 122-133) with: the query; the
    language, framework list and mode of the body, each replaced by its
    default (["typescript"], [react, vite], ["deterministic"]) when it is
    absent or falsy, the empty string included; the host name
    ([localhost:port] on localhost, the preview domain otherwise); the
    inference context made of the user's overrides, the generated id and
    the user id, with realtime code fixing on; and the template selection
    with its sandbox session. *)
Theorem agent_receives_resolved_arguments :
  exists args mode,
    last (effects (snd (startCodeGeneration request context c))) =
      Some (AgentInitialize args mode) /\
    launched (snd (startCodeGeneration request context c)) =
      Some (initialize stub args mode) /\
    init_query args = q /\
    init_language args = Some (orElse (language body) "typescript") /\
    init_frameworks args = Some (orElseArray (frameworks body) ["react"; "vite"]) /\
    mode = Some (orElse (agentMode body) "deterministic") /\
    init_hostname args =
      (if String.eqb (hostname (url request)) "localhost"
       then "localhost:" +:+ port (url request)
       else getPreviewDomain c) /\
    init_inferenceContext args =
      {| userModelConfigs := collectUserOverrides configs;
         ic_agentId := generateId c;
         userId := id (user context);
         enableRealtimeCodeFix := true |} /\
    init_templateInfo args = (templateDetails template, selection template) /\
    init_sandboxSessionId args = sandboxSessionId template.
Proof.
  rewrite startCodeGeneration_accepts. eexists _, _. cbn [snd effects launched].
  split; [reflexivity |]. repeat split.
Qed.

(** X9. The whole stream of a bootstrap whose initialization is fulfilled:
    the chunks written are the started event, then one [{chunk}] event per
    blueprint fragment in the order the agent reported them, then the
    sentinel, and the last call closes the writer. The readable side holds
    one line per event, the JSON text of the event followed by a newline,
    none for the sentinel, and is terminated. *)
Theorem fulfilled_bootstrap_stream init :
  launched (snd (startCodeGeneration request context c)) = Some init ->
  settled init = Normal tt ->
  exists started,
    writes (snd (startCodeGeneration request context c)) = [started] /\
    writes (snd (bootstrap request context c)) =
      started :: map chunkEvent (blueprintChunks init) ++ [JsString "terminate"] /\
    last (effects (snd (bootstrap request context c))) = Some WriterClose /\
    stream (snd (bootstrap request context c)) =
      Some {| controller :=
                {| enqueued :=
                     map (fun event =>
                            TextEncoder_encode (JSON_stringify c event +:+ newline))
                       (started :: map chunkEvent (blueprintChunks init));
                   terminated := true |};
              writerClosed := true |}.
Proof.
  intros Hlaunched Hsettled. unfold bootstrap.
  rewrite startCodeGeneration_accepts in *. cbn [snd launched] in Hlaunched.
  injection Hlaunched as Hinit. subst init.
  eexists. split; [reflexivity |].
  unfold settle. cbn [launched snd]. rewrite Hsettled.
  match goal with
  | |- context [foldl _ ?st0 ?chunks] =>
      destruct (BootstrapProperties.blueprint_chunks_written c chunks st0)
        as (He & _ & Hs);
      specialize (Hs _ eq_refl);
      set (st1 := foldl _ st0 _) in *
  end.
  split; [| split].
  - unfold writes. cbn [effects writer_close writer_write].
    rewrite He, !omap_app, BootstrapProperties.writes_of_chunks. cbn.
    by rewrite app_nil_r.
  - cbn [effects writer_close writer_write]. by rewrite last_snoc.
  - cbn [stream writer_close writer_write]. rewrite Hs. cbn. by rewrite map_map.
Qed.

End Accepted.
End Requests.

(** ** The map of user overrides *)

Section Overrides.

Context {V : Type}.

Lemma mapSet_keys (key : string) (value : V) (m : list (string * V)) :
  map fst (mapSet key value m) =
  if decide (key ∈ map fst m) then map fst m else map fst m ++ [key].
Proof.
  induction m as [| [k v] m IH]; cbn.
  - rewrite decide_False; [done | apply not_elem_of_nil].
  - destruct (String.eqb_spec k key) as [-> | Hne]; cbn.
    + rewrite decide_True; [done | apply elem_of_cons; by left].
    + rewrite IH. destruct (decide (key ∈ map fst m)) as [Hin | Hnin].
      * rewrite decide_True; [done | apply elem_of_cons; by right].
      * rewrite decide_False; [done |].
        intros [? | ?]%elem_of_cons; congruence.
Qed.

Lemma mapSet_new (key : string) (value : V) (m : list (string * V)) :
  key ∉ map fst m -> mapSet key value m = m ++ [(key, value)].
Proof.
  induction m as [| [k v] m IH]; cbn; [done |].
  intros Hnin. apply not_elem_of_cons in Hnin as [Hne Hnin].
  destruct (String.eqb_spec k key) as [-> | _]; [done |].
  by rewrite IH.
Qed.

End Overrides.

(** The invariant of the loop over the entries. *)
Lemma collect_from (acc : list (string * ModelConfig))
    (entries : list (string * MergedModelConfig)) :
  let step :=
    fun (userModelConfigs : list (string * ModelConfig))
        (entry : string * MergedModelConfig) =>
      let '(actionKey, mergedConfig) := entry in
      if isUserOverride mergedConfig then
        mapSet actionKey
          {| mc_name := name mergedConfig;
             mc_max_tokens := max_tokens mergedConfig;
             mc_temperature := temperature mergedConfig;
             mc_reasoning_effort := reasoning_effort mergedConfig;
             mc_fallbackModel := fallbackModel mergedConfig |} userModelConfigs
      else userModelConfigs in
  (NoDup (map fst acc) -> NoDup (map fst (foldl step acc entries))) /\
  (forall k, k ∈ map fst (foldl step acc entries) <->
             k ∈ map fst acc \/
             exists m, (k, m) ∈ entries /\ isUserOverride m = true) /\
  (NoDup (map fst entries) ->
   (forall k, k ∈ map fst acc -> k ∉ map fst entries) ->
   foldl step acc entries = acc ++ omap forwarded entries).
Proof.
  intros step. revert acc.
  induction entries as [| [k m] entries IH]; intros acc; cbn [foldl].
  - split; [done |]. split.
    + intros k. split; [by left |]. intros [? | (m & Hin & _)]; [done |].
      by apply elem_of_nil in Hin.
    + intros _ _. cbn. by rewrite app_nil_r.
  - destruct (IH (step acc (k, m))) as (IHdup & IHin & IHeq).
    assert (Hkeys : forall k', k' ∈ map fst (step acc (k, m)) <->
              k' ∈ map fst acc \/ (k' = k /\ isUserOverride m = true)).
    { intros k'. unfold step. destruct (isUserOverride m).
      - rewrite mapSet_keys. destruct (decide (k ∈ map fst acc)).
        + split; [by left |]. intros [? | [-> _]]; done.
        + rewrite elem_of_app, list_elem_of_singleton.
          split; (intros [? | ?]; [by left | right]); [done | by destruct H].
      - split; [by left | intros [? | [_ ?]]; done]. }
    split; [| split].
    + intros Hdup. apply IHdup. unfold step. destruct (isUserOverride m); [| done].
      rewrite mapSet_keys. destruct (decide (k ∈ map fst acc)); [done |].
      apply NoDup_app. split; [done |]. split; [| apply NoDup_singleton].
      intros x Hx ->%list_elem_of_singleton. done.
    + intros k'. rewrite IHin, Hkeys. split.
      * intros [[? | [-> Hm]] | (m' & Hin & Hm')]; [by left | right | right].
        -- exists m. split; [apply elem_of_cons; by left | done].
        -- exists m'. split; [apply elem_of_cons; by right | done].
      * intros [? | (m' & Hin & Hm')]; [by left; left |].
        apply elem_of_cons in Hin as [[= -> ->] | Hin]; [left; right; done |].
        right. eauto.
    + intros Hdup Hdisj. cbn in Hdup. apply NoDup_cons in Hdup as [Hk Hdup].
      rewrite IHeq; [| done |].
      * unfold step, forwarded at 2. cbn. destruct (isUserOverride m); [| done].
        rewrite mapSet_new; [by rewrite <- app_assoc |].
        intros Hin. apply (Hdisj k Hin). cbn. apply elem_of_cons. by left.
      * intros k' Hk'. apply Hkeys in Hk' as [Hk' | [-> _]]; [| done].
        intros Hin. apply (Hdisj k' Hk'). cbn. apply elem_of_cons. by right.
Qed.

(** X10. The map of overrides handed to the inference context (lines
    81-93) has one entry per key; its keys are exactly the keys of the
    entries of the user's record that are marked [isUserOverride]; and
    when the keys of the record are distinct, as those of an object are,
    the map is the record without the unmarked entries, in the same order,
    each entry reduced to its five [ModelConfig] fields. *)
Theorem only_user_overrides_are_forwarded
    (userConfigsRecord : list (string * MergedModelConfig)) :
  NoDup (map fst (collectUserOverrides userConfigsRecord)) /\
  (forall actionKey,
     actionKey ∈ map fst (collectUserOverrides userConfigsRecord) <->
     exists mergedConfig,
       (actionKey, mergedConfig) ∈ userConfigsRecord /\
       isUserOverride mergedConfig = true) /\
  (NoDup (map fst userConfigsRecord) ->
   collectUserOverrides userConfigsRecord = omap forwarded userConfigsRecord).
Proof.
  destruct (collect_from [] userConfigsRecord) as (Hdup & Hin & Heq).
  split; [apply Hdup, NoDup_nil_2 |]. split.
  - intros k. unfold collectUserOverrides. rewrite Hin. split.
    + intros [Hk | ?]; [by apply elem_of_nil in Hk | done].
    + by right.
  - intros Hnodup. apply Heq; [done |]. intros k Hk. by apply elem_of_nil in Hk.
Qed.

(** ** The writer and the transformer together *)

Section Writer.

Variable c : Collaborators.

(** Writes to a stream that is closed or terminated leave it as it is. *)
Lemma writes_on_dead_stream chunks st s :
  stream st = Some s ->
  writerClosed s || terminated (controller s) = true ->
  stream (foldl (fun st chunk => writer_write c chunk st) st chunks) = Some s.
Proof.
  revert st. induction chunks as [| chunk chunks IH]; intros st Hs Hdead; [done |].
  cbn [foldl]. apply IH; [| done]. cbn. by rewrite Hs, Hdead.
Qed.

(** X11. The transformer under any sequence of writes to an open stream:
    the readable side receives, after what it held, one line per chunk
    written before the first sentinel, in order, and nothing for any chunk
    written after it; the stream is terminated exactly when the sentinel
    was among the chunks. *)
Theorem nothing_is_enqueued_after_the_sentinel chunks st queue :
  stream st =
    Some {| controller := {| enqueued := queue; terminated := false |};
            writerClosed := false |} ->
  stream (foldl (fun st chunk => writer_write c chunk st) st chunks) =
    Some {| controller :=
              {| enqueued :=
                   queue ++
                   map (fun chunk =>
                          TextEncoder_encode (JSON_stringify c chunk +:+ newline))
                     (beforeSentinel chunks);
                 terminated := hasSentinel chunks |};
            writerClosed := false |}.
Proof.
  revert st queue. induction chunks as [| chunk chunks IH]; intros st queue Hs.
  - cbn. by rewrite app_nil_r.
  - cbn [foldl beforeSentinel hasSentinel existsb].
    destruct (strictEqualsString chunk "terminate") eqn:Hsentinel.
    + cbn. rewrite app_nil_r. apply writes_on_dead_stream; [| done].
      cbn. rewrite Hs. cbn. unfold transform. by rewrite Hsentinel.
    + cbn [orb map]. fold (hasSentinel chunks).
      rewrite (IH _ (queue ++ [TextEncoder_encode (JSON_stringify c chunk +:+ newline)])).
      * by rewrite <- app_assoc.
      * cbn. rewrite Hs. cbn. unfold transform. by rewrite Hsentinel.
Qed.

End Writer.

(** *** The theorems at work on sample requests *)

Import Samples CoverageSamples.

Lemma invalid_body_answers_400_witness :
  request_json unreadableBody = Abrupt syntaxError /\
  fst (bootstrap sampleRequest sampleContext unreadableBody) =
    ErrorResponse "Invalid JSON in request body: {}" 400.
Proof.
  split; [reflexivity |].
  exact (f_equal fst (invalid_body_answers_400 sampleRequest sampleContext
                        unreadableBody syntaxError eq_refl)).
Defined.


Lemma collaborator_failure_is_handled_witness :
  fst (bootstrap sampleRequest sampleContext noTemplate) =
    HandledError templateError "start code generation" /\
  writes (snd (bootstrap sampleRequest sampleContext noTemplate)) = [].
Proof.
  destruct (collaborator_failure_is_handled sampleRequest sampleContext noTemplate
              sampleBody [] _ templateError eq_refl eq_refl eq_refl
              (or_intror (or_intror (conj eq_refl (conj eq_refl eq_refl)))))
    as (Hresponse & _ & Hwrites & _).
  split; assumption.
Defined.

Lemma selectedTemplate_is_ignored_witness :
  bootstrap sampleRequest sampleContext
    (withBody
       (Normal {| query := Some "build a todo list"; language := None;
                  frameworks := None; selectedTemplate := Some "minimal";
                  agentMode := None |})
       initializationFulfils)
  = bootstrap sampleRequest sampleContext initializationFulfils.
Proof.
  exact (selectedTemplate_is_ignored sampleRequest sampleContext initializationFulfils
           sampleBody (Some "minimal") eq_refl).
Defined.


Lemma agent_receives_resolved_arguments_witness :
  exists args mode,
    last (effects (snd (startCodeGeneration sampleRequest sampleContext withChoices))) =
      Some (AgentInitialize args mode) /\
    init_language args = Some "typescript" /\
    init_frameworks args = Some ["vue"] /\
    mode = Some "smart" /\
    init_hostname args = "preview.example.com".
Proof.
  destruct (agent_receives_resolved_arguments sampleRequest sampleContext
              withChoices chosenBody "build a blog" [] _ sampleTemplate
              eq_refl eq_refl ltac:(discriminate) eq_refl eq_refl eq_refl eq_refl)
    as (args & mode & Hlast & _ & _ & Hlanguage & Hframeworks & Hmode & Hhost & _).
  exists args, mode. repeat split; assumption.
Defined.

Lemma fulfilled_bootstrap_stream_witness :
  exists started,
    writes (snd (bootstrap sampleRequest sampleContext initializationFulfils)) =
      [started; chunkEvent "# Plan"; chunkEvent "1. Layout"; JsString "terminate"] /\
    last (effects (snd (bootstrap sampleRequest sampleContext initializationFulfils))) =
      Some WriterClose.
Proof.
  destruct (fulfilled_bootstrap_stream sampleRequest sampleContext
              initializationFulfils sampleBody "build a todo list" [] _ sampleTemplate
              eq_refl eq_refl ltac:(discriminate) eq_refl eq_refl eq_refl eq_refl
              {| blueprintChunks := ["# Plan"; "1. Layout"]; settled := Normal tt |}
              eq_refl eq_refl)
    as (started & _ & Hwrites & Hlast & _).
  exists started. split; assumption.
Defined.

Lemma nothing_is_enqueued_after_the_sentinel_witness :
  stream
    (foldl (fun st chunk => writer_write initializationFulfils chunk st) openStream
       [chunkEvent "# Plan"; JsString "terminate"; chunkEvent "1. Layout"]) =
  Some {| controller :=
            {| enqueued :=
                 [TextEncoder_encode (stringify (chunkEvent "# Plan") +:+ newline)];
               terminated := true |};
          writerClosed := false |}.
Proof.
  exact (nothing_is_enqueued_after_the_sentinel initializationFulfils
           [chunkEvent "# Plan"; JsString "terminate"; chunkEvent "1. Layout"]
           openStream [] eq_refl).
Defined.

End BootstrapCoverage.

(** ** Conversational turn processor: traces, failures and composition *)

Module ConversationCoverage.

Import Conversation.

Section Traces.

Variable c : Collaborators.

(** The run of the engine, with the calls of the response callback it
    makes. *)
Lemma engine_notifications ai steps locals w :
  exists calls,
    foldl (fun frame step => runEngineStep (turnTools c ai) (onChunk ai) step frame)
      (locals, w) steps =
    ({| extractedUserResponse := extractedUserResponse locals +:+ streamedText steps;
        extractedEnhancedRequest :=
          default (extractedEnhancedRequest locals) (last (queuedRequests steps)) |},
     {| heap := heap w; idCalls := idCalls w;
        inferenceRequests := inferenceRequests w;
        callbackCalls := callbackCalls w ++ calls |}) /\
    Forall (fromTurn ai) calls /\
    streamingMessages calls = streamedChunks steps.
Proof.
  revert locals w. induction steps as [| step steps IH]; intros locals w.
  - exists []. cbn. rewrite ConversationProperties.append_empty_r, app_nil_r.
    split; [by destruct locals, w | by split].
  - cbn [foldl].
    destruct step as [chunk | [a | a | a r] | [a | a | a r] | [a | a | a r]]; cbn.
    all: lazymatch goal with
         | |- ex (fun _ => foldl _ (?l, ?w') _ = _ /\ _) =>
             destruct (IH l w') as (calls & -> & Hfrom & Hstream)
         end; cbn.
    all: eexists; rewrite <- ?app_assoc, ?ConversationProperties.append_assoc.
    all: (split;
          [first [reflexivity
                 | rewrite last_cons; unfold queuedRequests; destruct (last _); reflexivity] |]).
    all: split; [try (apply Forall_cons; split; [by repeat split |]); try exact Hfrom |].
    all: unfold streamingMessages, streamedChunks in *; cbn; congruence.
Qed.

(** What is quiet. *)
Lemma quiet_ret {A : Type} (a : A) : quiet (ret a).
Proof. by intros w r w' [= _ <-]. Qed.

Lemma quiet_throw {A : Type} error : quiet (@throw A error).
Proof. by intros w r w' [= _ <-]. Qed.

Lemma quiet_bind {A B : Type} (m : M A) (k : A -> M B) :
  quiet m -> (forall a, quiet (k a)) -> quiet (bind m k).
Proof.
  intros Hm Hk w r w' Hrun.
  apply ConversationProperties.bind_inv in Hrun
    as [(a & w1 & Hfirst & Hrest) | (error & Hfirst & _)].
  - apply Hm in Hfirst as [H1 H2]. apply Hk in Hrest as [H3 H4].
    split; congruence.
  - by apply Hm in Hfirst.
Qed.

Lemma quiet_generateConversationId : quiet (generateConversationId c).
Proof. by intros w r w' [= _ <-]. Qed.

Lemma quiet_spread l : quiet (spread l).
Proof. intros w r w' Hrun. by apply ConversationProperties.spread_inv in Hrun as [-> _]. Qed.

Lemma quiet_newArray items : quiet (newArray items).
Proof. by intros w r w' [= _ <-]. Qed.

Lemma quiet_push l items : quiet (push l items).
Proof.
  intros w r w'. unfold push. destruct (heap w !! l); by intros [= _ <-].
Qed.

Lemma quiet_mapM {A B : Type} (f : A -> M B) l :
  (forall a, quiet (f a)) -> quiet (mapM f l).
Proof.
  intros Hf. induction l as [| a l IH]; [apply quiet_ret |].
  cbn [mapM]. apply quiet_bind; [apply Hf |]. intros b.
  apply quiet_bind; [exact IH |]. intros bs. apply quiet_ret.
Qed.

Lemma quiet_execute_catch inputs error : quiet (execute_catch c inputs error).
Proof.
  unfold execute_catch.
  destruct (_ || _); [apply quiet_throw |].
  repeat first [apply quiet_bind; [| intros ?] | apply quiet_spread
               | apply quiet_generateConversationId | apply quiet_newArray
               | apply quiet_ret].
Qed.

Lemma and_both (P Q R : Prop) : P /\ Q -> R -> P /\ Q /\ R.
Proof. tauto. Qed.

Lemma generateConversationId_at w id :
  conversationIds c (idCalls w) = Normal id ->
  generateConversationId c w =
  (Normal id,
   {| heap := heap w; idCalls := S (idCalls w);
      inferenceRequests := inferenceRequests w; callbackCalls := callbackCalls w |}).
Proof. intros Hid. unfold generateConversationId. by rewrite Hid. Qed.

(** What a turn whose first two ids are drawn adds to the traces. *)
Lemma execute_traces inputs w past prompts userId aiConversationId :
  heap w !! pastMessages inputs = Some past ->
  getSystemPromptWithProjectContext c = Normal prompts ->
  conversationIds c (idCalls w) = Normal userId ->
  conversationIds c (S (idCalls w)) = Normal aiConversationId ->
  exists calls,
    inferenceRequests (snd (execute c inputs w)) =
      inferenceRequests w ++
      [{| request_messages :=
            prompts ++ past ++
            [withConversationId (createUserMessage (userMessage inputs)) userId];
          agentActionName := "conversationalResponse";
          tool_names :=
            [function_name (external_function (toolWebSearchDefinition c));
             function_name (external_function (toolWeatherDefinition c));
             "queue_request"];
          chunk_size := 64 |}] /\
    callbackCalls (snd (execute c inputs w)) = callbackCalls w ++ calls /\
    Forall (fromTurn aiConversationId) calls /\
    streamingMessages calls =
      streamedChunks (steps (inference c (length (inferenceRequests w)))).
Proof.
  intros Hpast Hprompt Hid0 Hid1.
  destruct (execute c inputs w) as [r final] eqn:Hexec. cbn [snd]. revert Hexec.
  unfold execute, tryCatch, execute_try.
  unfold bind at 1, liftCompletion; rewrite Hprompt.
  unfold bind at 1, spread at 1; rewrite Hpast.
  unfold bind at 1; rewrite (generateConversationId_at w userId) by exact Hid0.
  unfold bind at 1, newArray; cbn [heap idCalls inferenceRequests callbackCalls].
  unfold bind at 1; rewrite (generateConversationId_at _ aiConversationId) by exact Hid1.
  cbn [heap idCalls inferenceRequests callbackCalls].
  unfold bind at 1, spread; cbn [heap]; rewrite lookup_insert_eq.
  unfold bind at 1, executeInference.
  cbn [heap idCalls inferenceRequests callbackCalls].
  match goal with
  | |- context [foldl _ (?locals, ?w') (steps ?run)] =>
      destruct (engine_notifications aiConversationId (steps run) locals w')
        as (calls & -> & Hfrom & Hstream)
  end.
  cbn [heap idCalls inferenceRequests callbackCalls
       extractedUserResponse extractedEnhancedRequest].
  intros Hexec. exists calls.
  apply and_both; [| by split].
  revert Hexec.
  destruct (outcome _) as [result | error].
  - match goal with
    | |- context [bind ?m ?k ?w1] =>
        assert (Hq : quiet (bind m k));
        [| destruct (bind m k w1) as [[out | error] w2] eqn:Hrest]
    end.
    { repeat first [apply quiet_bind; [| intros ?] | apply quiet_mapM; intros ?
                   | apply quiet_push | apply quiet_generateConversationId
                   | apply quiet_ret]. }
    + apply Hq in Hrest as [Hr Hc]. intros [= _ <-]. cbn in Hr, Hc.
      by rewrite Hr, Hc.
    + apply Hq in Hrest as [Hr Hc]. cbn in Hr, Hc.
      intros [Hr3 Hc3]%quiet_execute_catch.
      by rewrite Hr3, Hc3, Hr, Hc.
  - intros [Hr3 Hc3]%quiet_execute_catch. cbn in Hr3, Hc3.
    by rewrite Hr3, Hc3.
Qed.

(** X12. In every turn whose history is an array, whose system prompt is
    built and whose first two ids are drawn, and however the turn ends
    (result, fallback or rethrown error), the inference engine is called
    exactly once, with: the system prompts, then the history, then the user
    message under the first id, as messages; the action
    ["conversationalResponse"]; the three tools web search, weather and
    [queue_request], in this order; and a chunk size of 64. *)
Theorem engine_is_called_once_with_the_whole_history
    inputs w past prompts userId aiConversationId :
  heap w !! pastMessages inputs = Some past ->
  getSystemPromptWithProjectContext c = Normal prompts ->
  conversationIds c (idCalls w) = Normal userId ->
  conversationIds c (S (idCalls w)) = Normal aiConversationId ->
  inferenceRequests (snd (execute c inputs w)) =
    inferenceRequests w ++
    [{| request_messages :=
          prompts ++ past ++
          [withConversationId (createUserMessage (userMessage inputs)) userId];
        agentActionName := "conversationalResponse";
        tool_names :=
          [function_name (external_function (toolWebSearchDefinition c));
           function_name (external_function (toolWeatherDefinition c));
           "queue_request"];
        chunk_size := 64 |}].
Proof.
  intros Hpast Hprompt Hid0 Hid1.
  by destruct (execute_traces inputs w past prompts userId aiConversationId
                 Hpast Hprompt Hid0 Hid1) as (calls & Hrequests & _).
Qed.


(** The ids of tagged messages are the ids they were tagged with. *)
Lemma tagged_ids l ids :
  length ids = length l ->
  conversationId <$> zip_with withConversationId l ids = Some <$> ids.
Proof.
  revert ids. induction l as [| m l IH]; intros [| id ids]; try done.
  intros [= Hlen]. cbn. by rewrite IH.
Qed.

Lemma appendedBy_ids text result first :
  conversationId <$> appendedBy c text result first =
  Some <$> (idAt c <$>
            first :: seq (first + 2) (length (keptNewMessages result))
            ++ [first + 2 + length (keptNewMessages result)]).
Proof.
  unfold appendedBy. rewrite !fmap_app, tagged_ids by by rewrite length_fmap, length_seq.
  by rewrite !fmap_cons, !fmap_app.
Qed.

(** X14. In a successful turn with a fresh id generator, the id under which
    the response is streamed to the callback is the id of no message of
    the returned history: the user message, the kept new messages and the
    final assistant message each carry an id of their own, and the id of
    the turn is stored nowhere. *)
Theorem streamed_id_is_not_a_stored_id inputs w past prompts result :
  heap w !! pastMessages inputs = Some past ->
  getSystemPromptWithProjectContext c = Normal prompts ->
  idsAvailable c ->
  idsFresh c ->
  outcome (inference c (length (inferenceRequests w))) = Normal result ->
  exists out w' calls,
    execute c inputs w = (Normal out, w') /\
    heap w' !! messages out =
      Some (past ++ appendedBy c (userMessage inputs) result (idCalls w)) /\
    callbackCalls w' = callbackCalls w ++ calls /\
    Forall (fun call => cb_conversationId call = idAt c (S (idCalls w))) calls /\
    Forall (fun message => conversationId message <> Some (idAt c (S (idCalls w))))
      (appendedBy c (userMessage inputs) result (idCalls w)).
Proof.
  intros Hpast Hprompt Ha Hf Hout.
  destruct (ConversationProperties.execute_try_resolved c inputs w past prompts result
              Hpast Hprompt Ha Hout) as (calls0 & request & _ & Htry).
  assert (Hid0 : conversationIds c (idCalls w) = Normal (idAt c (idCalls w))).
  { unfold idAt. by destruct (Ha (idCalls w)) as [id ->]. }
  assert (Hid1 : conversationIds c (S (idCalls w)) = Normal (idAt c (S (idCalls w)))).
  { unfold idAt. by destruct (Ha (S (idCalls w))) as [id ->]. }
  destruct (execute_traces inputs w past prompts _ _ Hpast Hprompt Hid0 Hid1)
    as (calls & _ & Hcalls & Hfrom & _).
  unfold execute, tryCatch in Hcalls |- *. rewrite Htry in Hcalls |- *.
  cbn [snd callbackCalls] in Hcalls. apply app_inv_head in Hcalls as ->.
  eexists _, _, calls. split; [reflexivity |].
  cbn [messages heap callbackCalls]. rewrite lookup_insert_eq.
  split; [| split; [reflexivity | split]].
  - unfold appendedBy, withUserMessage. by rewrite <- !app_assoc.
  - eapply Forall_impl; [exact Hfrom |]. by intros call [Hid _].
  - apply (Forall_fmap conversationId (fun id => id <> Some (idAt c (S (idCalls w))))).
    rewrite appendedBy_ids. apply Forall_fmap, Forall_fmap, Forall_forall.
    intros n Hn. cbn. intros [= Heq].
    apply ConversationProperties.idAt_inj in Heq; [| done | done]. subst n.
    apply elem_of_cons in Hn as [Hn | [Hn | Hn]%elem_of_app]; [lia | |].
    + apply elem_of_seq in Hn. lia.
    + apply list_elem_of_singleton in Hn. lia.
Qed.

(** X15. When the system prompt cannot be built (line 97 throws), the
    engine is not called, no id is drawn in the [try] block and the
    callback is not called. A quota or security violation is rethrown
    with the world untouched; any other error gives the fallback, whose
    two messages take the first two ids. *)
Theorem prompt_failure_skips_the_engine inputs w past error :
  heap w !! pastMessages inputs = Some past ->
  getSystemPromptWithProjectContext c = Abrupt error ->
  (instanceofRateLimitExceededError error || instanceofSecurityError error = true ->
   execute c inputs w = (Abrupt error, w)) /\
  (instanceofRateLimitExceededError error || instanceofSecurityError error = false ->
   idsAvailable c ->
   execute c inputs w =
   (Normal {| conversationResponse :=
                {| enhancedUserRequest := "User request: " +:+ userMessage inputs;
                   userResponse := FALLBACK_USER_RESPONSE |};
              messages := fresh (dom (heap w)) |},
    {| heap :=
         <[fresh (dom (heap w)) :=
             past ++
             [withConversationId (createUserMessage (userMessage inputs))
                (idAt c (idCalls w));
              withConversationId (createAssistantMessage FALLBACK_USER_RESPONSE)
                (idAt c (S (idCalls w)))]]> (heap w);
       idCalls := S (S (idCalls w));
       inferenceRequests := inferenceRequests w;
       callbackCalls := callbackCalls w |})).
Proof.
  intros Hpast Hprompt.
  assert (Htry : execute_try c inputs w = (Abrupt error, w)).
  { unfold execute_try. unfold bind at 1, liftCompletion. by rewrite Hprompt. }
  unfold execute, tryCatch. rewrite Htry. split.
  - intros Hclass. unfold execute_catch. by rewrite Hclass.
  - intros [Hrate Hsec]%orb_false_elim Ha.
    by apply ConversationProperties.execute_catch_fallback.
Qed.

(** X16. The fallback is not unconditional: the [catch] block draws ids
    of its own (lines 189-190), outside any [try]. When the engine fails
    with an error that would be recovered and the id generator throws at
    the first of these draws, [execute] throws the error of the id
    generator; three ids have been asked for, and every array that existed
    is unchanged. *)
Theorem fallback_fails_with_the_id_generator
    inputs w past prompts userId aiConversationId error idError :
  heap w !! pastMessages inputs = Some past ->
  getSystemPromptWithProjectContext c = Normal prompts ->
  conversationIds c (idCalls w) = Normal userId ->
  conversationIds c (S (idCalls w)) = Normal aiConversationId ->
  outcome (inference c (length (inferenceRequests w))) = Abrupt error ->
  instanceofRateLimitExceededError error || instanceofSecurityError error = false ->
  conversationIds c (S (S (idCalls w))) = Abrupt idError ->
  fst (execute c inputs w) = Abrupt idError /\
  arraysKept w (snd (execute c inputs w)) /\
  idCalls (snd (execute c inputs w)) = idCalls w + 3.
Proof.
  intros Hpast Hprompt Hid0 Hid1 Hout Hclass Hid2.
  destruct (execute c inputs w) as [r final] eqn:Hexec. cbn [fst snd]. revert Hexec.
  unfold execute, tryCatch, execute_try.
  unfold bind at 1, liftCompletion; rewrite Hprompt.
  unfold bind at 1, spread at 1; rewrite Hpast.
  unfold bind at 1; rewrite (generateConversationId_at w userId) by exact Hid0.
  unfold bind at 1, newArray; cbn [heap idCalls inferenceRequests callbackCalls].
  unfold bind at 1; rewrite (generateConversationId_at _ aiConversationId) by exact Hid1.
  cbn [heap idCalls inferenceRequests callbackCalls].
  unfold bind at 1, spread; cbn [heap]; rewrite lookup_insert_eq.
  unfold bind at 1, executeInference.
  cbn [heap idCalls inferenceRequests callbackCalls].
  match goal with
  | |- context [foldl _ (?locals, ?w') (steps ?run)] =>
      destruct (engine_notifications aiConversationId (steps run) locals w')
        as (calls & -> & _ & _)
  end.
  rewrite Hout. unfold execute_catch. rewrite Hclass.
  unfold bind at 1, spread. cbn [heap].
  rewrite lookup_insert_ne, Hpast.
  2:{ intros Heq. pose proof (ConversationProperties.fresh_location_unused w) as Hnone.
      rewrite Heq in Hnone. congruence. }
  unfold bind at 1, generateConversationId. cbn [idCalls]. rewrite Hid2.
  intros [= <- <-]. cbn [heap idCalls]. split; [done |]. split; [| lia].
  intros l items Hl. cbn [heap]. rewrite lookup_insert_ne; [done |].
  intros <-. pose proof (ConversationProperties.fresh_location_unused w). congruence.
Qed.

(** The filter keeps the order. *)
Lemma keptNewMessages_sublist text new :
  keptNewMessages {| result_string := text; newMessages := Some new |} `sublist_of` new.
Proof.
  unfold keptNewMessages. cbn. induction new as [| m new IH]; [constructor |].
  cbn. destruct (negb _); by constructor.
Qed.

(** X17. The filter of line 166. The kept messages are the new messages in
    their order, some left out; a message is left out exactly when its role
    is [assistant], its content is a string, and that string contains
    ["Internal Memo"] (so a user or tool message quoting a memo, or an
    assistant message with structured content, is kept); absent new
    messages count as none; and the memos [processProjectUpdates] builds
    are among those left out, should the engine hand them back. *)
Theorem only_internal_memos_are_dropped text new :
  keptNewMessages {| result_string := text; newMessages := Some new |}
    `sublist_of` new /\
  (forall message,
     message ∈ keptNewMessages {| result_string := text; newMessages := Some new |} <->
     message ∈ new /\
     ~ (role message = RoleAssistant /\
        exists body, content message = TextContent body /\
                     includes body "Internal Memo" = true)) /\
  keptNewMessages {| result_string := text; newMessages := None |} = [] /\
  (forall updateType data w memos w',
     processProjectUpdates c updateType data w = (Normal memos, w') ->
     keptNewMessages {| result_string := text; newMessages := Some (memos ++ new) |} =
     keptNewMessages {| result_string := text; newMessages := Some new |}).
Proof.
  split; [apply keptNewMessages_sublist |]. split; [| split; [done |]].
  - intros message. unfold keptNewMessages. cbn [newMessages].
    rewrite !list_elem_of_In, filter_In.
    unfold isInternalMemo.
    destruct (role message) eqn:Hrole, (content message) as [body | |] eqn:Hcontent;
      cbn; try (split; [intros [Hin _]; split; [done |]; intros [? (? & ? & ?)]; congruence
                       | intros [Hin _]; done]).
    destruct (includes body "Internal Memo") eqn:Hmemo; cbn.
    + split; [by intros [_ ?] |]. intros [_ []]. eauto.
    + split; [| by intros [? _]]. intros [Hin _]. split; [done |].
      intros [_ (body' & [= <-] & Hyes)]. congruence.
  - intros updateType data w memos w'.
    unfold processProjectUpdates, Conversation.tryCatch, bind, generateConversationId, ret.
    destruct (conversationIds c (idCalls w)) as [id | idError]; intros [= <- _].
    + unfold keptNewMessages. cbn [newMessages List.filter app].
      by rewrite ConversationProperties.preparedMessage_is_memo.
    + reflexivity.
Qed.

(** X19. [isProjectUpdateType] accepts a value exactly when it is the name
    of one of the seven project updates [processProjectUpdates] is typed
    for; any value that is no string is refused. *)
Theorem isProjectUpdateType_accepts_the_relevant_updates type :
  isProjectUpdateType c type = true <->
  exists updateType, type = JsString (WebSocketMessageResponses c updateType).
Proof.
  split.
  - destruct type as [| | | name | |]; try done. cbn.
    rewrite !orb_true_iff, !String.eqb_eq.
    intros [-> | [-> | [-> | [-> | [-> | [-> | [-> | [=]]]]]]]]; eauto.
  - intros [updateType ->]. cbn.
    destruct updateType; rewrite ?String.eqb_refl, ?orb_true_r; reflexivity.
Qed.

(** The calls of the id generator behind the messages of a turn. *)
Lemma turnIndices_bounds first count n :
  n ∈ turnIndices first count -> first <= n < first + 3 + count.
Proof.
  unfold turnIndices.
  intros [-> | [Hn | ->%list_elem_of_singleton]%elem_of_app]%elem_of_cons; try lia.
  apply elem_of_seq in Hn. lia.
Qed.

Lemma turnIndices_distinct first count : NoDup (turnIndices first count).
Proof.
  unfold turnIndices. apply NoDup_cons. split.
  - intros [Hin | Hin]%elem_of_app.
    + apply elem_of_seq in Hin. lia.
    + apply list_elem_of_singleton in Hin. lia.
  - apply NoDup_app. split; [apply NoDup_seq |]. split; [| apply NoDup_singleton].
    intros i Hin ->%list_elem_of_singleton. apply elem_of_seq in Hin. lia.
Qed.

(** X18. Two successful turns in a row, the second taking the array the
    first returned as its history, with a fresh id generator: the second
    turn returns a new array, which holds the original history, then the
    messages of the first turn, then those of the second; the array of the
    first turn is left as it was; all appended messages carry ids, pairwise
    distinct across the two turns; and the second call of the engine is
    given the system prompts, the original history, the messages of the
    first turn and the new user message. *)
Theorem consecutive_turns_extend_one_history
    inputs next w past prompts first second :
  heap w !! pastMessages inputs = Some past ->
  getSystemPromptWithProjectContext c = Normal prompts ->
  idsAvailable c ->
  idsFresh c ->
  outcome (inference c (length (inferenceRequests w))) = Normal first ->
  outcome (inference c (S (length (inferenceRequests w)))) = Normal second ->
  exists out1 w1 out2 w2 ids,
    execute c inputs w = (Normal out1, w1) /\
    execute c {| userMessage := next; pastMessages := messages out1 |} w1 =
      (Normal out2, w2) /\
    messages out2 <> messages out1 /\
    heap w2 !! messages out1 =
      Some (past ++ appendedBy c (userMessage inputs) first (idCalls w)) /\
    heap w2 !! messages out2 =
      Some (past ++ appendedBy c (userMessage inputs) first (idCalls w)
                 ++ appendedBy c next second (idCalls w1)) /\
    conversationId <$> (appendedBy c (userMessage inputs) first (idCalls w)
                        ++ appendedBy c next second (idCalls w1)) = Some <$> ids /\
    NoDup ids /\
    exists request1 request2,
      inferenceRequests w2 = inferenceRequests w ++ [request1; request2] /\
      request_messages request2 =
        prompts ++ past ++ appendedBy c (userMessage inputs) first (idCalls w)
        ++ [withConversationId (createUserMessage next) (idAt c (idCalls w1))].
Proof.
  intros Hpast Hprompt Ha Hf Hfirst Hsecond.
  destruct (ConversationProperties.execute_try_resolved c inputs w past prompts first
              Hpast Hprompt Ha Hfirst) as (calls1 & request1 & _ & Htry1).
  match type of Htry1 with _ = (Normal ?out, ?w') => set (out1 := out) in *; set (w1 := w') in * end.
  assert (Hturn1 : heap w1 !! messages out1 =
                   Some (past ++ appendedBy c (userMessage inputs) first (idCalls w))).
  { cbn. rewrite lookup_insert_eq. unfold appendedBy, withUserMessage.
    by rewrite <- !app_assoc. }
  assert (Hsecond' : outcome (inference c (length (inferenceRequests w1))) = Normal second).
  { cbn. rewrite length_app. cbn. by rewrite Nat.add_1_r. }
  destruct (ConversationProperties.execute_try_resolved c
              {| userMessage := next; pastMessages := messages out1 |} w1 _ prompts second
              Hturn1 Hprompt Ha Hsecond') as (calls2 & request2 & Hrequest2 & Htry2).
  match type of Htry2 with _ = (Normal ?out, ?w') => set (out2 := out) in *; set (w2 := w') in * end.
  assert (Hne : messages out2 <> messages out1).
  { intros Heq. pose proof (ConversationProperties.fresh_location_unused w1) as Hnone.
    change (fresh (dom (heap w1))) with (messages out2) in Hnone.
    rewrite Heq in Hnone. congruence. }
  exists out1, w1, out2, w2,
    (idAt c <$> turnIndices (idCalls w) (length (keptNewMessages first))
                ++ turnIndices (idCalls w1) (length (keptNewMessages second))).
  split; [unfold execute, tryCatch; by rewrite Htry1 |].
  split; [unfold execute, tryCatch; by rewrite Htry2 |].
  split; [exact Hne |].
  split. { subst w2. cbn [heap]. by rewrite lookup_insert_ne. }
  split.
  { subst w2. cbn [heap messages out2]. rewrite lookup_insert_eq.
    unfold appendedBy, withUserMessage. cbn [userMessage].
    by rewrite <- !app_assoc. }
  split. { by rewrite !fmap_app, !appendedBy_ids. }
  split.
  { apply NoDup_fmap_2_strong.
    - intros i j _ _. by apply ConversationProperties.idAt_inj.
    - apply NoDup_app. split; [apply turnIndices_distinct |].
      split; [| apply turnIndices_distinct].
      intros n Hn1%turnIndices_bounds Hn2%turnIndices_bounds.
      subst w1. cbn [idCalls] in Hn2. lia. }
  exists request1, request2. split.
  - subst w2 w1. cbn [inferenceRequests]. by rewrite <- app_assoc.
  - rewrite Hrequest2. unfold withUserMessage. cbn [userMessage].
    by rewrite <- !app_assoc.
Qed.

End Traces.

(** *** The theorems at work on sample turns *)

Import TurnSamples TurnCoverageSamples.

(** The engine fails after one fragment: it was called once all the same. *)
Lemma engine_is_called_once_with_the_whole_history_witness :
  inferenceRequests
    (snd (execute (processorWith sequentialIds (failingRun engineTimeout))
            sampleTurn sampleWorld)) =
  [{| request_messages :=
        systemPrompt ++ earlier ++
        [withConversationId (createUserMessage "add a dark mode toggle") "conv-0"];
      agentActionName := "conversationalResponse";
      tool_names := ["web_search"; "get_weather"; "queue_request"];
      chunk_size := 64 |}].
Proof.
  exact (engine_is_called_once_with_the_whole_history
           (processorWith sequentialIds (failingRun engineTimeout))
           sampleTurn sampleWorld earlier systemPrompt "conv-0" "conv-1"
           ConversationProperties.sampleWorld_history eq_refl eq_refl eq_refl).
Defined.


Lemma streamed_id_is_not_a_stored_id_witness :
  exists out w' calls,
    execute (processorWith sequentialIds queueRun) sampleTurn sampleWorld =
      (Normal out, w') /\
    callbackCalls w' = calls /\
    Forall (fun call => cb_conversationId call = "conv-1") calls /\
    exists appended,
      heap w' !! messages out = Some (earlier ++ appended) /\
      Forall (fun message => conversationId message <> Some "conv-1") appended.
Proof.
  destruct (streamed_id_is_not_a_stored_id (processorWith sequentialIds queueRun)
              sampleTurn sampleWorld earlier systemPrompt _
              ConversationProperties.sampleWorld_history eq_refl
              (ConversationProperties.sequentialIds_available _)
              (ConversationProperties.sequentialIds_fresh _) eq_refl)
    as (out & w' & calls & Hrun & Hheap & Hcalls & Hfrom & Hstored).
  exists out, w', calls. split; [exact Hrun |]. split; [exact Hcalls |].
  split; [exact Hfrom |]. eexists. split; [exact Hheap | exact Hstored].
Defined.

Lemma prompt_failure_skips_the_engine_witness :
  getSystemPromptWithProjectContext (promptFails promptError) = Abrupt promptError /\
  inferenceRequests (snd (execute (promptFails promptError) sampleTurn sampleWorld)) = [] /\
  exists out w',
    execute (promptFails promptError) sampleTurn sampleWorld = (Normal out, w') /\
    conversationResponse out =
      {| enhancedUserRequest := "User request: add a dark mode toggle";
         userResponse := FALLBACK_USER_RESPONSE |}.
Proof.
  split; [reflexivity |].
  pose proof (proj2 (prompt_failure_skips_the_engine (promptFails promptError)
                       sampleTurn sampleWorld earlier promptError
                       ConversationProperties.sampleWorld_history eq_refl)
                eq_refl (fun n => ex_intro _ _ eq_refl)) as Hrun.
  rewrite Hrun. split; [reflexivity |]. eexists _, _. split; reflexivity.
Defined.

Lemma fallback_fails_with_the_id_generator_witness :
  outcome (inference (processorWith twoIds (failingRun engineTimeout)) 0) =
    Abrupt engineTimeout /\
  fst (execute (processorWith twoIds (failingRun engineTimeout))
         sampleTurn sampleWorld) = Abrupt idError.
Proof.
  split; [reflexivity |].
  exact (proj1 (fallback_fails_with_the_id_generator
                  (processorWith twoIds (failingRun engineTimeout))
                  sampleTurn sampleWorld earlier systemPrompt "conv-0" "conv-1"
                  engineTimeout idError
                  ConversationProperties.sampleWorld_history
                  eq_refl eq_refl eq_refl eq_refl eq_refl eq_refl)).
Defined.

Lemma consecutive_turns_extend_one_history_witness :
  exists out1 w1 out2 w2 (ids : list string),
    execute (processorWith sequentialIds queueRun) sampleTurn sampleWorld =
      (Normal out1, w1) /\
    execute (processorWith sequentialIds queueRun)
      {| userMessage := "and a footer"; pastMessages := messages out1 |} w1 =
      (Normal out2, w2) /\
    messages out2 <> messages out1 /\
    length ids = 8 /\
    NoDup ids /\
    length (inferenceRequests w2) = 2.
Proof.
  destruct (consecutive_turns_extend_one_history
              (processorWith sequentialIds queueRun) sampleTurn "and a footer"
              sampleWorld earlier systemPrompt _ _
              ConversationProperties.sampleWorld_history eq_refl
              (ConversationProperties.sequentialIds_available _)
              (ConversationProperties.sequentialIds_fresh _) eq_refl eq_refl)
    as (out1 & w1 & out2 & w2 & ids & Hrun1 & Hrun2 & Hne & _ & _ & Hids & Hdup
        & request1 & request2 & Hrequests & _).
  exists out1, w1, out2, w2, ids.
  split; [exact Hrun1 |]. split; [exact Hrun2 |]. split; [exact Hne |].
  split; [| split; [exact Hdup |]].
  - apply (f_equal length) in Hids. rewrite !length_fmap, length_app in Hids.
    symmetry. exact Hids.
  - rewrite Hrequests. reflexivity.
Defined.

End ConversationCoverage.
